(** * Network configuration renderer and change-record reporter

    A shallow embedding of [scripts/render_config.py] and
    [scripts/servicenow_integration.py].

    - Python [str] values are lists of Unicode code points, so that
      [str.strip], [str.split], [str.startswith], [str.endswith] and
      [str.join] are the list functions below.
    - [print] appends one structured message to the standard output of the
      modelled world; the exact wording of the f-strings is not modelled.
    - Exceptions are values: a computation returns [Ret v] or [Raise r], and
      [try ... except] is the combinator [try_except].
    - PyYAML, Jinja2 and requests are libraries outside the repository; they
      are Section variables, total functions that may fail with any
      exception deriving from [Exception]. *)

From Stdlib Require Import NArith ZArith List Ascii String Lia.
From stdpp Require Import base option list gmap.

Open Scope list_scope.

Set Warnings "-register-all".

(** ** Text: Python [str] as a list of code points *)

Module Text.

Definition char := N.
Definition str := list N.

(** An ASCII literal as a [str]. *)
Definition lit (s : string) : str := map N_of_ascii (list_ascii_of_string s).

Definition nl : char := 10%N.
Definition slash : char := 47%N.

(** [str.isspace] on one code point (CPython's [_PyUnicode_IsWhitespace]). *)
Definition isspace (c : char) : bool :=
  ((9 <=? c) && (c <=? 13) || (28 <=? c) && (c <=? 32) ||
   (c =? 133) || (c =? 160) || (c =? 5760) ||
   (8192 <=? c) && (c <=? 8202) ||
   (c =? 8232) || (c =? 8233) || (c =? 8239) || (c =? 8287) ||
   (c =? 12288))%N.

Fixpoint lstrip (s : str) : str :=
  match s with
  | c :: s' => if isspace c then lstrip s' else s
  | [] => []
  end.

Definition rstrip (s : str) : str := rev (lstrip (rev s)).

(** [s.strip()] *)
Definition strip (s : str) : str := rstrip (lstrip s).

(** Truth value of a [str]: non-empty. *)
Definition truthy (s : str) : bool :=
  match s with [] => false | _ :: _ => true end.

(** [s.startswith(p)] *)
Fixpoint startswith (s p : str) : bool :=
  match p, s with
  | [], _ => true
  | _ :: _, [] => false
  | c :: p', d :: s' => (c =? d)%N && startswith s' p'
  end.

(** [s.endswith(p)] *)
Definition endswith (s p : str) : bool := startswith (rev s) (rev p).

(** [s.split(sep)] for a one-character separator: never the empty list. *)
Fixpoint split_on (sep : char) (s : str) : list str :=
  match s with
  | [] => [[]]
  | c :: s' =>
      if (c =? sep)%N then [] :: split_on sep s'
      else match split_on sep s' with
           | l :: ls => (c :: l) :: ls
           | [] => [[c]]
           end
  end.

(** [sep.join(xs)] *)
Fixpoint join (sep : str) (xs : list str) : str :=
  match xs with
  | [] => []
  | x :: xs' =>
      match xs' with
      | [] => x
      | _ :: _ => x ++ sep ++ join sep xs'
      end
  end.

End Text.

Import Text.

(** ** Exceptions and results *)

(** The exception classes the two scripts meet; all derive from
    [Exception]. *)
Inductive exc :=
| FileNotFoundError
| IsADirectoryError
| NotADirectoryError
| FileExistsError
| YAMLError (msg : str)
| TemplateNotFound (name : str)
| KeyError (key : str)
| UnboundLocalError (name : str)
| OtherException (msg : str).

(** What can leave a call: an [Exception], or [SystemExit] (raised by
    [sys.exit], not an [Exception], so [except Exception] lets it through). *)
Inductive raised :=
| Exc (e : exc)
| SystemExit (code : Z).

Inductive res (A : Type) :=
| Ret (a : A)
| Raise (r : raised).
Arguments Ret {A} a.
Arguments Raise {A} r.

(** Outcome of a call into a library: a value or an [Exception]. *)
Inductive lib (A : Type) :=
| Done (a : A)
| Fails (e : exc).
Arguments Done {A} a.
Arguments Fails {A} e.

(** ** Paths and the file system *)

(** A [pathlib] path is the list of its components. The working directory
    of the process is the root of the modelled tree, [[]], so a relative
    and an absolute path with the same components name the same place. *)
Definition path := list str.

(** Components of a path string as [pathlib] keeps them: empty components
    and [.] are dropped, [..] is kept. *)
Definition parts (s : str) : path :=
  List.filter (fun c => truthy c && negb (bool_decide (c = lit ".")))
    (split_on slash s).

(** [Path(s)] *)
Definition Path (s : str) : path := parts s.

(** [p / s] *)
Definition path_div (p : path) (s : str) : path :=
  if startswith s [slash] then parts s else p ++ parts s.

(** [p.parent] *)
Definition parent (p : path) : path := removelast p.

(** The stored tree: the directories and the regular files, each under the
    list of plain names that leads to it from the root. *)
Record filesystem := {
  dirs : gset path;
  files : gmap path str
}.

Definition is_dir (fs : filesystem) (p : path) : bool :=
  bool_decide (p = [] ∨ p ∈ dirs fs).

(** A name that keeps the walk in the directory it is in: [.], and the
    empty name that a doubled or trailing slash leaves. *)
Definition stays (name : str) : bool :=
  bool_decide (name = []) || bool_decide (name = lit ".").

Definition goes_up (name : str) : bool := bool_decide (name = lit "..").

(** Where the kernel ends when it resolves a path. *)
Inductive entry :=
| IsFile (place : path) (content : str)
| IsDir (place : path)
| Absent (place : path) (* the last name is not in its directory: ENOENT, and
                           the place a new entry of that name takes *)
| NotADir               (* a name is looked up in a regular file: ENOTDIR *)
| NoEnt.                (* a name before the last is missing: ENOENT *)

(** The kernel's walk over the names of a path, from the directory
    [cur]: [.] and the empty name stay, [..] goes to the parent directory,
    any other name is looked up in the directory reached so far. *)
Fixpoint walk (fs : filesystem) (cur : path) (names : list str) : entry :=
  match names with
  | [] => IsDir cur
  | name :: rest =>
      if stays name then walk fs cur rest
      else if goes_up name then
        if is_dir fs (parent cur) then walk fs (parent cur) rest else NoEnt
      else
        let next := cur ++ [name] in
        if is_dir fs next then walk fs next rest
        else match files fs !! next, rest with
             | Some content, [] => IsFile next content
             | Some _, _ :: _ => NotADir
             | None, [] => Absent next
             | None, _ :: _ => NoEnt
             end
  end.

(** Resolution of the names of a path from the working directory. *)
Definition stat (fs : filesystem) (names : list str) : entry := walk fs [] names.

(** ** Findings and messages *)

Inductive issue := TrailingWhitespace.

(** One validation error, [f"Line {i}: Trailing whitespace"]. *)
Definition finding : Type := nat * issue.

(** One constructor per [print] call of [render_config.py]. *)
Inductive message :=
| LoadedInput (input_file : str)
| InputNotFound (input_file : str)
| YamlParseError (e : exc)
| TemplateNotFoundWarning (template_file : str)
| RenderError (template_name : str) (e : exc)
| RenderingTemplates
| RenderingSection (template_name : str)
| RenderedSuccessfully (output_file : path)
| Validating
| ValidationErrorsFound
| ValidationError (error : finding)
| ValidationPassed
| RenderingComplete.

(** ** The world and the monad of the script *)

Record world := {
  fs : filesystem;
  stdout : list message
}.

Definition M (A : Type) : Type := world -> res A * world.

Definition ret {A} (a : A) : M A := fun w => (Ret a, w).

Definition bind {A B} (c : M A) (k : A -> M B) : M B :=
  fun w =>
    match c w with
    | (Ret a, w') => k a w'
    | (Raise r, w') => (Raise r, w')
    end.

Definition raise {A} (e : exc) : M A := fun w => (Raise (Exc e), w).

(** [sys.exit(code)] *)
Definition sys_exit {A} (code : Z) : M A := fun w => (Raise (SystemExit code), w).

Definition print (m : message) : M unit :=
  fun w => (Ret tt, {| fs := fs w; stdout := stdout w ++ [m] |}).

Definition of_lib {A} (r : lib A) : M A :=
  match r with
  | Done a => ret a
  | Fails e => raise e
  end.

(** [try: body except ...:] where [handler e] is the first clause matching
    [e], if any. [SystemExit] is matched by no clause of the scripts. *)
Definition try_except {A} (body : M A) (handler : exc -> option (M A)) : M A :=
  fun w =>
    match body w with
    | (Raise (Exc e), w') =>
        match handler e with
        | Some h => h w'
        | None => (Raise (Exc e), w')
        end
    | r => r
    end.

Notation "'do' x <- c ; k" := (bind c (fun x => k))
  (at level 10, x name, c at level 100, k at level 200).
Notation "'run' c ; k" := (bind c (fun _ => k))
  (at level 10, c at level 100, k at level 200).

(** [for x in xs: body x] *)
Fixpoint for_each {A} (xs : list A) (body : A -> M unit) : M unit :=
  match xs with
  | [] => ret tt
  | x :: xs' => run body x; for_each xs' body
  end.

(** *** File operations *)

(** [open(names, 'r')] followed by reading the whole file. *)
Definition open_read (names : list str) : M str :=
  fun w =>
    match stat (fs w) names with
    | IsFile _ content => (Ret content, w)
    | IsDir _ => (Raise (Exc IsADirectoryError), w)
    | NotADir => (Raise (Exc NotADirectoryError), w)
    | Absent _ | NoEnt => (Raise (Exc FileNotFoundError), w)
    end.

Definition put_file (p : path) (content : str) (w : world) : world :=
  {| fs := {| dirs := dirs (fs w); files := <[p := content]> (files (fs w)) |};
     stdout := stdout w |}.

(** [with open(p, 'w') as f: f.write(content)] *)
Definition open_write (p : path) (content : str) : M unit :=
  fun w =>
    match stat (fs w) p with
    | IsFile place _ => (Ret tt, put_file place content w)
    | Absent place => (Ret tt, put_file place content w)
    | IsDir _ => (Raise (Exc IsADirectoryError), w)
    | NotADir => (Raise (Exc NotADirectoryError), w)
    | NoEnt => (Raise (Exc FileNotFoundError), w)
    end.

Definition add_dir (p : path) (w : world) : world :=
  {| fs := {| dirs := {[p]} ∪ dirs (fs w); files := files (fs w) |};
     stdout := stdout w |}.

(** [p.mkdir(exist_ok=True)]: [parents] keeps its default, [False]. *)
Definition mkdir_exist_ok (p : path) : M unit :=
  fun w =>
    match stat (fs w) p with
    | IsDir _ => (Ret tt, w)
    | Absent place => (Ret tt, add_dir place w)
    | IsFile _ _ => (Raise (Exc FileExistsError), w)
    | NotADir => (Raise (Exc NotADirectoryError), w)
    | NoEnt => (Raise (Exc FileNotFoundError), w)
    end.

(** [open(s, 'r')] on the raw string [s]: the kernel sees every name
    between the slashes, and the empty string names nothing. *)
Definition open_str_read (s : str) : M str :=
  if truthy s then open_read (split_on slash s) else raise FileNotFoundError.

(** Exit status of the interpreter when the main function ends with [r]. *)
Definition exit_status {A} (r : res A) : Z :=
  match r with
  | Ret _ => 0
  | Raise (SystemExit code) => code
  | Raise (Exc _) => 1
  end.

(** ** [render_config.py] *)

(** A [dict] with string keys and values, in insertion order. *)
Definition dict := list (str * str).

Definition dict_keys (d : dict) : list str := map fst d.

Definition dict_get (d : dict) (k : str) : option str :=
  snd <$> find (fun kv => bool_decide (fst kv = k)) d.

Record ConfigRenderer := {
  templates_dir : path;
  output_dir : path;
  template_files : dict
}.

Record Args := {
  arg_input_file : str;
  arg_device_name : str;
  arg_templates_dir : str;
  arg_output_dir : option str;
  arg_validate : bool
}.

(** [args.output_dir] as a truth value: neither [None] nor empty. *)
Definition given (o : option str) : option str :=
  match o with
  | Some s => if truthy s then Some s else None
  | None => None
  end.

Definition config_file_name (device_name : str) : str :=
  device_name ++ lit "_config.txt".

Section Renderer.

(** The parsed input document and a loaded template are opaque to the
    script. *)
Variables Document Template : Type.

(** [yaml.safe_load] on the text of the input file. *)
Variable yaml_safe_load : str -> lib Document.

(** [Environment(loader=FileSystemLoader(dir)).get_template(name)]: reads
    the file system, does not change it. *)
Variable get_template : filesystem -> path -> str -> lib Template.

(** [template.render] on the keyword arguments unpacked from [data]; a
    [data] that cannot be unpacked is one of its failures. *)
Variable template_render : filesystem -> path -> Template -> Document -> lib str.

Definition ConfigRenderer_init (templates_dir output_dir : str) : M ConfigRenderer :=
  let templates_dir := Path templates_dir in
  let output_dir := Path output_dir in
  run mkdir_exist_ok output_dir;
  ret {| templates_dir := templates_dir;
         output_dir := output_dir;
         template_files :=
           [ (lit "bgp", lit "bgp.j2");
             (lit "routing_filters", lit "routing_filters.j2");
             (lit "interfaces", lit "interfaces.j2");
             (lit "vlans", lit "vlans.j2");
             (lit "system", lit "system.j2") ] |}.

Definition load_yaml_input (self : ConfigRenderer) (input_file : str) : M Document :=
  try_except
    (do text <- open_str_read input_file;
     do data <- of_lib (yaml_safe_load text);
     run print (LoadedInput input_file);
     ret data)
    (fun e =>
       match e with
       | FileNotFoundError =>
           Some (run print (InputNotFound input_file); sys_exit 1)
       | YAMLError _ =>
           Some (run print (YamlParseError e); sys_exit 1)
       | _ => None
       end).

Definition render_template (self : ConfigRenderer) (template_name : str)
    (data : Document) : M str :=
  let template_file := dict_get (template_files self) template_name in
  try_except
    (match template_file with
     | None => raise (KeyError template_name)
     | Some template_file =>
         do template <- (fun w => of_lib (get_template (fs w) (templates_dir self) template_file) w);
         do rendered <- (fun w => of_lib (template_render (fs w) (templates_dir self) template data) w);
         ret rendered
     end)
    (fun e =>
       match e with
       | TemplateNotFound _ =>
           Some (match template_file with
                 | Some template_file =>
                     run print (TemplateNotFoundWarning template_file); ret []
                 | None => raise (UnboundLocalError (lit "template_file"))
                 end)
       | _ => Some (run print (RenderError template_name e); ret [])
       end).

(** The [for] loop of [render_all_templates] over [config_sections]. *)
Fixpoint render_loop (self : ConfigRenderer) (data : Document)
    (names : list str) (config_sections : list str) : M (list str) :=
  match names with
  | [] => ret config_sections
  | template_name :: names' =>
      run print (RenderingSection template_name);
      do rendered <- render_template self template_name data;
      let config_sections :=
        if truthy (strip rendered) then config_sections ++ [rendered]
        else config_sections in
      render_loop self data names' config_sections
  end.

Definition render_all_templates (self : ConfigRenderer) (data : Document)
    (device_name : str) (output_file : option path) : M str :=
  run print RenderingTemplates;
  do config_sections <- render_loop self data (dict_keys (template_files self)) [];
  let complete_config := join [nl] config_sections in
  let output_file :=
    match output_file with
    | Some p => p
    | None => path_div (output_dir self) (config_file_name device_name)
    end in
  run open_write output_file complete_config;
  run print (RenderedSuccessfully output_file);
  ret complete_config.

(** The [for] loop of [validate_config] over [enumerate(lines, i)]. *)
Fixpoint validate_lines (i : nat) (lines : list str)
    (validation_errors : list finding) : list finding :=
  match lines with
  | [] => validation_errors
  | line :: lines' =>
      let line := strip line in
      if negb (truthy line) || startswith line (lit "!") then
        validate_lines (S i) lines' validation_errors
      else
        let validation_errors :=
          if endswith line (lit " ")
          then validation_errors ++ [(i, TrailingWhitespace)]
          else validation_errors in
        validate_lines (S i) lines' validation_errors
  end.

Definition validation_errors (config_text : str) : list finding :=
  validate_lines 1 (split_on nl config_text) [].

Definition validate_config (self : ConfigRenderer) (config_text : str) : M bool :=
  run print Validating;
  let validation_errors := validation_errors config_text in
  match validation_errors with
  | _ :: _ =>
      run print ValidationErrorsFound;
      run for_each validation_errors (fun error => print (ValidationError error));
      ret false
  | [] =>
      run print ValidationPassed;
      ret true
  end.

Definition main (args : Args) : M unit :=
  do renderer <- ConfigRenderer_init (arg_templates_dir args)
                   (match given (arg_output_dir args) with
                    | Some d => d
                    | None => lit "output"
                    end);
  do data <- load_yaml_input renderer (arg_input_file args);
  let output_file :=
    match given (arg_output_dir args) with
    | Some d => path_div (Path d) (config_file_name (arg_device_name args))
    | None => path_div (parent (Path (arg_input_file args)))
                (config_file_name (arg_device_name args))
    end in
  do config <- render_all_templates renderer data (arg_device_name args) (Some output_file);
  run (if arg_validate args then
         do validation_passed <- validate_config renderer config;
         if negb validation_passed then sys_exit 1 else ret tt
       else ret tt);
  print RenderingComplete.

(** *** Auxiliary definitions of the statements *)

(** The text [render_template] hands back for a section when the file
    system is [fsys], and the messages it prints on the way. *)
Definition section_text (self : ConfigRenderer) (data : Document)
    (fsys : filesystem) (template_name : str) : str :=
  match fst (render_template self template_name data {| fs := fsys; stdout := [] |}) with
  | Ret text => text
  | Raise _ => []
  end.

Definition section_diag (self : ConfigRenderer) (data : Document)
    (fsys : filesystem) (template_name : str) : list message :=
  stdout (snd (render_template self template_name data {| fs := fsys; stdout := [] |})).

(** Standard output of one pass of the loop over [names]. *)
Definition section_trace (self : ConfigRenderer) (data : Document)
    (fsys : filesystem) (names : list str) : list message :=
  flat_map (fun n => RenderingSection n :: section_diag self data fsys n) names.

End Renderer.

(** ** [servicenow_integration.py] *)

Module ServiceNow.

(** A parsed JSON value; an object is a [dict] in insertion order. *)
Inductive json :=
| JNull
| JBool (b : bool)
| JNum (z : Z)
| JStr (s : str)
| JArr (l : list json)
| JObj (kv : list (str * json)).

(** Truth value of a parsed JSON value. *)
Definition json_truthy (v : json) : bool :=
  match v with
  | JNull => false
  | JBool b => b
  | JNum z => negb (z =? 0)%Z
  | JStr s => truthy s
  | JArr l => match l with [] => false | _ :: _ => true end
  | JObj kv => match kv with [] => false | _ :: _ => true end
  end.

Definition obj_find (k : str) (kv : list (str * json)) : option json :=
  snd <$> find (fun e => bool_decide (fst e = k)) kv.

(** [v.get(k)]: [None] is [JNull]. *)
Definition json_get (k : str) (v : json) : lib json :=
  match v with
  | JObj kv => Done (default JNull (obj_find k kv))
  | _ => Fails (OtherException (lit "AttributeError"))
  end.

(** [v[0]] *)
Definition json_first (v : json) : lib json :=
  match v with
  | JArr (x :: _) => Done x
  | JArr [] => Fails (OtherException (lit "IndexError"))
  | JStr (c :: _) => Done (JStr [c])
  | JStr [] => Fails (OtherException (lit "IndexError"))
  | JObj _ => Fails (KeyError (lit "0"))
  | _ => Fails (OtherException (lit "TypeError"))
  end.

(** [v[k]] for a string [k] *)
Definition json_item (k : str) (v : json) : lib json :=
  match v with
  | JObj kv =>
      match obj_find k kv with
      | Some x => Done x
      | None => Fails (KeyError k)
      end
  | _ => Fails (OtherException (lit "TypeError"))
  end.

Record response := {
  status_code : Z;
  response_json : lib json
}.

(** [update_data], the body of the update. *)
Record update_data := {
  state : str;
  work_notes : str
}.

(** The two requests of the script; the update URL [f"{url}/{sys_id}"] is
    kept as its two parts. *)
Inductive http_request :=
| Get (url : str) (auth : str * str) (sysparm_query : str) (sysparm_limit : Z)
| Put (url : str) (sys_id : json) (auth : str * str) (data : update_data).

(** One constructor per [print] call of [servicenow_integration.py]. *)
Inductive message :=
| ErrorRetrieving (status_code : Z)
| ChangeRequestNotFound (change_number : str)
| UpdatedChangeRequest (change_number : str)
| ErrorUpdating (status_code : Z)
| ExceptionUpdating (e : exc)
| CredentialsNotConfigured
| IntegrationComplete.

(** Requests issued so far and standard output. *)
Record session := {
  sent : list http_request;
  out : list message
}.

Definition say (m : message) (st : session) : session :=
  {| sent := sent st; out := out st ++ [m] |}.

Record ServiceNowIntegration := {
  instance_url : str;
  auth : str * str
}.

(** [os.environ], the five variables the script reads. *)
Record environ := {
  SERVICENOW_INSTANCE_URL : option str;
  SERVICENOW_USERNAME : option str;
  SERVICENOW_PASSWORD : option str;
  GITHUB_HEAD_REF : option str;
  WORKFLOW_STATUS : option str
}.

Definition status_mapping : dict :=
  [ (lit "success", lit "Review");
    (lit "failure", lit "Authorize");
    (lit "cancelled", lit "Cancelled") ].

(** [status_mapping.get(workflow_status, 'Authorize')] *)
Definition snow_status (workflow_status : str) : str :=
  default (lit "Authorize") (dict_get status_mapping workflow_status).

Definition workflow_status (env : environ) : str :=
  default (lit "unknown") (WORKFLOW_STATUS env).

Definition change_number (env : environ) : str :=
  default (lit "CHG0000000") (GITHUB_HEAD_REF env).

Definition option_truthy (o : option str) : bool :=
  match o with
  | Some s => truthy s
  | None => false
  end.

Section Integration.

(** The network and the remote instance: the answer to a request, given the
    requests issued before it, or an exception of [requests]. *)
Variable requests : list http_request -> http_request -> lib response.

(** [datetime.now().isoformat()] at the time of the update. *)
Variable now_isoformat : str.

Definition send (r : http_request) (st : session) : lib response * session :=
  (requests (sent st) r, {| sent := sent st ++ [r]; out := out st |}).

(** The body of the [try] of [update_change_request]. *)
Definition try_update (self : ServiceNowIntegration) (change_number status comments : str)
    (st : session) : lib bool * session :=
  let url := instance_url self ++ lit "/api/now/table/change_request" in
  match send (Get url (auth self) (lit "number=" ++ change_number) 1) st with
  | (Fails e, st) => (Fails e, st)
  | (Done response, st) =>
      if negb (status_code response =? 200)%Z then
        (Done false, say (ErrorRetrieving (status_code response)) st)
      else
        match response_json response with
        | Fails e => (Fails e, st)
        | Done data =>
            match json_get (lit "result") data with
            | Fails e => (Fails e, st)
            | Done result =>
                if negb (json_truthy result) then
                  (Done false, say (ChangeRequestNotFound change_number) st)
                else
                  match json_first result with
                  | Fails e => (Fails e, st)
                  | Done record =>
                      match json_item (lit "sys_id") record with
                      | Fails e => (Fails e, st)
                      | Done sys_id =>
                          let update_data :=
                            {| state := status;
                               work_notes :=
                                 lit "GitHub Actions Update: " ++ comments ++
                                 lit "\n\nTimestamp: " ++ now_isoformat |} in
                          match send (Put url sys_id (auth self) update_data) st with
                          | (Fails e, st) => (Fails e, st)
                          | (Done update_response, st) =>
                              if (status_code update_response =? 200)%Z then
                                (Done true, say (UpdatedChangeRequest change_number) st)
                              else
                                (Done false,
                                 say (ErrorUpdating (status_code update_response)) st)
                          end
                      end
                  end
            end
        end
  end.

Definition update_change_request (self : ServiceNowIntegration)
    (change_number status comments : str) (st : session) : bool * session :=
  match try_update self change_number status comments st with
  | (Done b, st) => (b, st)
  | (Fails e, st) => (false, say (ExceptionUpdating e) st)
  end.

Definition main (env : environ) (st : session) : res unit * session :=
  let instance_url := SERVICENOW_INSTANCE_URL env in
  let username := SERVICENOW_USERNAME env in
  let password := SERVICENOW_PASSWORD env in
  let change_number := change_number env in
  let workflow_status := workflow_status env in
  if negb (option_truthy instance_url && option_truthy username && option_truthy password)
  then (Ret tt, say CredentialsNotConfigured st)
  else
    let snow := {| instance_url := default [] instance_url;
                   auth := (default [] username, default [] password) |} in
    let snow_status := snow_status workflow_status in
    let comments :=
      lit "GitHub Actions workflow completed with status: " ++ workflow_status in
    let (success, st) := update_change_request snow change_number snow_status comments st in
    if negb success then (Raise (SystemExit 1), st)
    else (Ret tt, say IntegrationComplete st).

(** Standard output of [get_change_request_details]: its one [print]. *)
Inductive details_message :=
| ExceptionRetrieving (e : exc).

(** The body of the [try] of [get_change_request_details]. *)
Definition try_details (self : ServiceNowIntegration) (change_number : str)
    (st : session) : lib (option json) * session :=
  let url := instance_url self ++ lit "/api/now/table/change_request" in
  match send (Get url (auth self) (lit "number=" ++ change_number) 1) st with
  | (Fails e, st) => (Fails e, st)
  | (Done response, st) =>
      if (status_code response =? 200)%Z then
        match response_json response with
        | Fails e => (Fails e, st)
        | Done data =>
            match json_get (lit "result") data with
            | Fails e => (Fails e, st)
            | Done result =>
                if json_truthy result then
                  match json_first result with
                  | Fails e => (Fails e, st)
                  | Done record => (Done (Some record), st)
                  end
                else (Done None, st)
            end
        end
      else (Done None, st)
  end.

(** [get_change_request_details]: the details or [None], what it prints,
    and the session after it. *)
Definition get_change_request_details (self : ServiceNowIntegration)
    (change_number : str) (st : session)
    : option json * list details_message * session :=
  match try_details self change_number st with
  | (Done details, st) => (details, [], st)
  | (Fails e, st) => (None, [ExceptionRetrieving e], st)
  end.

(** *** Auxiliary definitions of the statements *)

(** The table endpoint, the lookup and the update that
    [update_change_request] issues. *)
Definition table_url (self : ServiceNowIntegration) : str :=
  instance_url self ++ lit "/api/now/table/change_request".

Definition lookup_request (self : ServiceNowIntegration) (change_number : str)
    : http_request :=
  Get (table_url self) (auth self) (lit "number=" ++ change_number) 1.

Definition update_request (self : ServiceNowIntegration) (sys_id : json)
    (status comments : str) : http_request :=
  Put (table_url self) sys_id (auth self)
    {| state := status;
       work_notes := lit "GitHub Actions Update: " ++ comments ++
                     lit "\n\nTimestamp: " ++ now_isoformat |}.

(** The object [main] builds from the environment, and its comment. *)
Definition integration_of (env : environ) : ServiceNowIntegration :=
  {| instance_url := default [] (SERVICENOW_INSTANCE_URL env);
     auth := (default [] (SERVICENOW_USERNAME env),
              default [] (SERVICENOW_PASSWORD env)) |}.

Definition comments_of (env : environ) : str :=
  lit "GitHub Actions workflow completed with status: " ++ workflow_status env.

Definition configured (env : environ) : bool :=
  option_truthy (SERVICENOW_INSTANCE_URL env) &&
  option_truthy (SERVICENOW_USERNAME env) &&
  option_truthy (SERVICENOW_PASSWORD env).

(** Whether the instance accepts the update of [sys_id], asked after the
    lookup. *)
Definition accepted (self : ServiceNowIntegration) (change_number status comments : str)
    (st : session) (sys_id : json) : bool :=
  match requests (sent st ++ [lookup_request self change_number])
          (update_request self sys_id status comments) with
  | Done update_response => (status_code update_response =? 200)%Z
  | Fails _ => false
  end.

End Integration.

End ServiceNow.

(** ** Auxiliary definitions of the statements *)

(** The text of the validation scenario: three lines, the second ending in
    a space. *)
Definition scenario_text : str :=
  lit "no issues here" ++ [nl] ++ lit "bad line " ++ [nl] ++ lit "clean" ++ [nl].

(** A line the loop of [validate_config] passes over: blank after
    stripping, or a comment. *)
Definition skipped (line : str) : bool :=
  negb (truthy (strip line)) || startswith (strip line) (lit "!").

(** A rendered section is kept when it is not empty after trimming. *)
Definition kept (rendered : str) : bool := truthy (strip rendered).

(** The composition as the specification words it: of the rendered texts
    taken in registry order, those that are non-empty after trimming,
    untrimmed; the first as it is, each later one after one newline. *)
Definition compose_spec (rendered : list str) : str :=
  match List.filter kept rendered with
  | [] => []
  | first :: others => first ++ flat_map (fun text => nl :: text) others
  end.

(** The place [open(p, 'w')] writes to, when it succeeds: the regular file
    [p] resolves to, or the place of the new file. *)
Definition write_target (fsys : filesystem) (p : path) : option path :=
  match stat fsys p with
  | IsFile place _ | Absent place => Some place
  | _ => None
  end.

(** [open(p, 'w')] succeeds. *)
Definition writable (fsys : filesystem) (p : path) : bool :=
  match stat fsys p with
  | IsFile _ _ | Absent _ => true
  | _ => false
  end.

(** The exception of [open(p, 'w')] when it fails. *)
Definition write_error (fsys : filesystem) (p : path) : exc :=
  match stat fsys p with
  | IsDir _ => IsADirectoryError
  | NotADir => NotADirectoryError
  | _ => FileNotFoundError
  end.

(** What [open(p).read()] gives, when [p] resolves to a regular file. *)
Definition content_at (fsys : filesystem) (p : list str) : option str :=
  match stat fsys p with
  | IsFile _ content => Some content
  | _ => None
  end.

(** [p.mkdir(exist_ok=True)] succeeds: [p] resolves to a directory, or
    only its last name is missing. *)
Definition can_mkdir (fsys : filesystem) (p : path) : bool :=
  match stat fsys p with
  | IsDir _ | Absent _ => true
  | _ => false
  end.

(** The directory [p] resolves to once [p.mkdir(exist_ok=True)] has
    succeeded. *)
Definition mkdir_target (fsys : filesystem) (p : path) : option path :=
  match stat fsys p with
  | IsDir place | Absent place => Some place
  | _ => None
  end.

(** A result that a new directory at [added] leaves as it is: a
    directory, or a file or a missing name at another place. *)
Definition untouched_by (added : path) (r : entry) : Prop :=
  match r with
  | IsDir _ => True
  | IsFile place _ | Absent place => place <> added
  | NotADir | NoEnt => False
  end.

(** A name that is looked up as it is: not empty, not [.], not [..]. *)
Definition plain (name : str) : bool := negb (stays name) && negb (goes_up name).

(** The section names announced on standard output, in order. *)
Definition announced (out : list message) : list str :=
  flat_map (fun m => match m with RenderingSection n => [n] | _ => [] end) out.

(** The destination [render_all_templates] writes to. *)
Definition destination (self : ConfigRenderer) (device_name : str)
    (output_file : option path) : path :=
  match output_file with
  | Some p => p
  | None => path_div (output_dir self) (config_file_name device_name)
  end.

Definition five_sections : list str :=
  [lit "bgp"; lit "routing_filters"; lit "interfaces"; lit "vlans"; lit "system"].

(** The registry of the isolation scenario. *)
Definition scenario_registry : dict :=
  [(lit "interfaces", lit "ok.tmpl"); (lit "vlans", lit "missing.tmpl")].

(** The world after printing the messages [ms]. *)
Definition emit (w : world) (ms : list message) : world :=
  {| fs := fs w; stdout := stdout w ++ ms |}.

(** A small library instance for the examples: [ok.tmpl] is the only
    template and renders the same text for every document. *)
Definition toy_safe_load (text : str) : lib unit := Done tt.

Definition toy_get_template (fsys : filesystem) (dir : path) (name : str) : lib str :=
  if bool_decide (name = lit "ok.tmpl") then Done (lit "interface Eth1")
  else Fails (TemplateNotFound name).

Definition toy_render (fsys : filesystem) (dir : path) (template : str) (data : unit)
    : lib str :=
  Done template.

Definition empty_world : world :=
  {| fs := {| dirs := ∅; files := ∅ |}; stdout := [] |}.

Definition scenario_renderer : ConfigRenderer :=
  {| templates_dir := [lit "templates"];
     output_dir := [lit "output"];
     template_files := scenario_registry |}.

(** The five registry entries, in the order of the constructor. *)
Definition five_entries : dict :=
  [ (lit "bgp", lit "bgp.j2");
    (lit "routing_filters", lit "routing_filters.j2");
    (lit "interfaces", lit "interfaces.j2");
    (lit "vlans", lit "vlans.j2");
    (lit "system", lit "system.j2") ].

(** The renderer object [ConfigRenderer(templates_dir, output_dir)]. *)
Definition constructed (templates_dir output_dir : str) : ConfigRenderer :=
  {| templates_dir := Path templates_dir;
     output_dir := Path output_dir;
     template_files := five_entries |}.

(** Command-line arguments of an example run. *)
Definition example_args : Args :=
  {| arg_input_file := lit "changes/input.yaml";
     arg_device_name := lit "device";
     arg_templates_dir := lit "templates/arista";
     arg_output_dir := None;
     arg_validate := true |}.

(** An instance that knows every change request and accepts every update,
    and an environment with the credentials set. *)
Definition toy_requests (history : list ServiceNow.http_request)
    (r : ServiceNow.http_request) : lib ServiceNow.response :=
  match r with
  | ServiceNow.Get _ _ _ _ =>
      Done {| ServiceNow.status_code := 200;
              ServiceNow.response_json :=
                Done (ServiceNow.JObj
                        [(lit "result",
                          ServiceNow.JArr
                            [ServiceNow.JObj
                               [(lit "sys_id", ServiceNow.JStr (lit "abc123"))]])]) |}
  | ServiceNow.Put _ _ _ _ =>
      Done {| ServiceNow.status_code := 200;
              ServiceNow.response_json := Done ServiceNow.JNull |}
  end.

Definition toy_environ (status : option str) : ServiceNow.environ :=
  {| ServiceNow.SERVICENOW_INSTANCE_URL := Some (lit "https://example.service-now.com");
     ServiceNow.SERVICENOW_USERNAME := Some (lit "bot");
     ServiceNow.SERVICENOW_PASSWORD := Some (lit "secret");
     ServiceNow.GITHUB_HEAD_REF := Some (lit "CHG0123456");
     ServiceNow.WORKFLOW_STATUS := status |}.

Definition new_session : ServiceNow.session :=
  {| ServiceNow.sent := []; ServiceNow.out := [] |}.


(** *** Auxiliary definitions for the runs of [main] *)

(** The directory [main] hands to the constructor, and the file it asks
    [render_all_templates] to write. *)
Definition main_output_dir (args : Args) : str :=
  match given (arg_output_dir args) with
  | Some d => d
  | None => lit "output"
  end.

Definition main_destination (args : Args) : path :=
  match given (arg_output_dir args) with
  | Some d => path_div (Path d) (config_file_name (arg_device_name args))
  | None => path_div (parent (Path (arg_input_file args)))
              (config_file_name (arg_device_name args))
  end.

(** The world after a successful [p.mkdir(exist_ok=True)]. *)
Definition after_mkdir (p : path) (w : world) : world :=
  match stat (fs w) p with
  | Absent place => add_dir place w
  | _ => w
  end.

(** No regular file is read at the raw path string [s]: nothing is there,
    or a directory is. *)
Definition unreadable (fsys : filesystem) (s : str) : bool :=
  negb (truthy s) ||
  match stat fsys (split_on slash s) with
  | IsFile _ _ => false
  | _ => true
  end.

(** [open(s, 'r')] raises [FileNotFoundError]: the string is empty, or a
    name on the path is missing below a directory. *)
Definition missing (fsys : filesystem) (s : str) : bool :=
  negb (truthy s) ||
  match stat fsys (split_on slash s) with
  | Absent _ | NoEnt => true
  | _ => false
  end.

(** What the end of [main] prints. *)
Definition closing_messages (validate : bool) : list message :=
  (if validate then [Validating; ValidationPassed] else []) ++ [RenderingComplete].

(** The same arguments with the validate flag set to [v]. *)
Definition with_validate (v : bool) (args : Args) : Args :=
  {| arg_input_file := arg_input_file args;
     arg_device_name := arg_device_name args;
     arg_templates_dir := arg_templates_dir args;
     arg_output_dir := arg_output_dir args;
     arg_validate := v |}.

(** An exception that [load_yaml_input] handles. *)
Definition handled_by_loader (e : exc) : bool :=
  match e with
  | FileNotFoundError | YAMLError _ => true
  | _ => false
  end.

(** A world with the input file of [example_args] in its directory. *)
Definition input_world : world :=
  {| fs := {| dirs := {[ [lit "changes"] ]};
              files := {[ [lit "changes"; lit "input.yaml"] := lit "hostname: r1" ]} |};
     stdout := [] |}.

(** A loader library that rejects every text. *)
Definition toy_failing_load (text : str) : lib unit :=
  Fails (YAMLError (lit "mapping values are not allowed here")).

(** A loader library that fails to decode every text. *)
Definition toy_undecodable_load (text : str) : lib unit :=
  Fails (OtherException (lit "UnicodeDecodeError")).

(** A template library whose every template renders the text [r1]. *)
Definition toy_get_any (fsys : filesystem) (dir : path) (name : str) : lib str :=
  Done (lit "r1").

(** An instance that answers every request with status 404. *)
Definition toy_requests_404 (history : list ServiceNow.http_request)
    (r : ServiceNow.http_request) : lib ServiceNow.response :=
  Done {| ServiceNow.status_code := 404;
          ServiceNow.response_json := Fails (OtherException (lit "JSONDecodeError")) |}.

(** An instance that finds the change request and refuses the update. *)
Definition toy_requests_refused (history : list ServiceNow.http_request)
    (r : ServiceNow.http_request) : lib ServiceNow.response :=
  match r with
  | ServiceNow.Get _ _ _ _ => toy_requests history r
  | ServiceNow.Put _ _ _ _ =>
      Done {| ServiceNow.status_code := 403;
              ServiceNow.response_json := Done ServiceNow.JNull |}
  end.

(** An environment without credentials. *)
Definition bare_environ : ServiceNow.environ :=
  {| ServiceNow.SERVICENOW_INSTANCE_URL := None;
     ServiceNow.SERVICENOW_USERNAME := Some (lit "bot");
     ServiceNow.SERVICENOW_PASSWORD := Some [];
     ServiceNow.GITHUB_HEAD_REF := None;
     ServiceNow.WORKFLOW_STATUS := None |}.

(** The arguments of [example_args] with the output directory [out]. *)
Definition example_args_with_output : Args :=
  {| arg_input_file := lit "changes/input.yaml";
     arg_device_name := lit "device";
     arg_templates_dir := lit "templates/arista";
     arg_output_dir := Some (lit "out");
     arg_validate := false |}.

(** A template library with two templates, [interfaces.j2] and
    [vlans.j2], each rendering its own text. *)
Definition toy_get_two (fsys : filesystem) (dir : path) (name : str) : lib str :=
  if bool_decide (name = lit "interfaces.j2") then Done (lit "interface Eth1")
  else if bool_decide (name = lit "vlans.j2") then Done (lit "vlan 10")
  else Fails (TemplateNotFound name).

(** A world with the regular file [input.yaml] in the working directory. *)
Definition flat_world : world :=
  {| fs := {| dirs := ∅; files := {[ [lit "input.yaml"] := lit "hostname: r1" ]} |};
     stdout := [] |}.

(** A run whose input path passes through the output directory it names. *)
Definition args_through_output : Args :=
  {| arg_input_file := lit "out/../input.yaml";
     arg_device_name := lit "device";
     arg_templates_dir := lit "templates/arista";
     arg_output_dir := Some (lit "out");
     arg_validate := false |}.

(** * Properties *)

(** ** Text *)

Section TextFacts.

Lemma isspace_space : isspace 32%N = true.
Proof. reflexivity. Qed.

(** [lstrip] stops at a character that is not white space. *)
Lemma lstrip_head (s : str) :
  lstrip s = [] \/ exists c t, lstrip s = c :: t /\ isspace c = false.
Proof.
  induction s as [|c s IH]; simpl.
  - now left.
  - destruct (isspace c) eqn:Hc; [exact IH|].
    right. now exists c, s.
Qed.

Lemma lstrip_all_space (s : str) :
  forallb isspace s = true -> lstrip s = [].
Proof.
  induction s as [|c s IH]; simpl; [reflexivity|].
  intros H. apply andb_true_iff in H as [Hc Hs].
  rewrite Hc. auto.
Qed.

Lemma strip_all_space (s : str) :
  forallb isspace s = true -> strip s = [].
Proof.
  intros H. unfold strip, rstrip. now rewrite (lstrip_all_space s H).
Qed.

(** A stripped string never ends with a space: the test of
    [validate_config] on the stripped line cannot succeed. *)
Lemma strip_not_endswith_space (s : str) :
  endswith (strip s) (lit " ") = false.
Proof.
  unfold endswith, strip, rstrip. rewrite rev_involutive.
  destruct (lstrip_head (rev (lstrip s))) as [-> | (c & t & -> & Hc)].
  - reflexivity.
  - change (rev (lit " ")) with [32%N]. cbn [startswith].
    destruct (N.eqb_spec 32 c) as [<-|_]; [|reflexivity].
    rewrite isspace_space in Hc. discriminate.
Qed.

Lemma split_on_absent (sep : char) (s : str) :
  ~ In sep s -> split_on sep s = [s].
Proof.
  induction s as [|c s IH]; simpl; [reflexivity|].
  intros H. destruct (N.eqb_spec c sep) as [->|_].
  - exfalso. apply H. now left.
  - rewrite IH; [reflexivity|]. intros Hin. apply H. now right.
Qed.

End TextFacts.

(** ** Validator *)

Section ValidatorFacts.

Lemma validate_lines_skip (i : nat) (line : str) (lines : list str) (acc : list finding) :
  skipped line = true ->
  validate_lines i (line :: lines) acc = validate_lines (S i) lines acc.
Proof.
  unfold skipped. intros H. simpl. now rewrite H.
Qed.

(** Every finding of the loop is an earlier one or comes from a line that
    was not passed over and met the trailing-space test. *)
Lemma validate_lines_sound (lines : list str) :
  forall (i : nat) (acc : list finding) (f : finding),
    In f (validate_lines i lines acc) ->
    In f acc \/
    exists k line,
      lines !! k = Some line /\ fst f = i + k /\
      skipped line = false /\ endswith (strip line) (lit " ") = true.
Proof.
  induction lines as [|line lines IH]; intros i acc f Hf; simpl in Hf.
  - now left.
  - fold (skipped line) in Hf.
    destruct (skipped line) eqn:Hskip.
    + apply IH in Hf as [Hf | (k & l & Hk & Hi & Hs & He)]; [now left|].
      right. exists (S k), l. repeat split; auto; lia.
    + destruct (endswith (strip line) (lit " ")) eqn:Hend.
      * apply IH in Hf as [Hf | (k & l & Hk & Hi & Hs & He)].
        -- apply in_app_iff in Hf as [Hf | [<- | []]]; [now left|].
           right. exists 0, line. repeat split; auto; simpl; lia.
        -- right. exists (S k), l. repeat split; auto; lia.
      * apply IH in Hf as [Hf | (k & l & Hk & Hi & Hs & He)]; [now left|].
        right. exists (S k), l. repeat split; auto; lia.
Qed.

(** The trailing-space test runs on the stripped line, so it never fires. *)
Lemma validation_errors_nil (config_text : str) :
  validation_errors config_text = [].
Proof.
  unfold validation_errors.
  destruct (validate_lines 1 (split_on nl config_text) []) as [|f fs] eqn:E;
    [reflexivity|].
  assert (Hf : In f (validate_lines 1 (split_on nl config_text) []))
    by (rewrite E; now left).
  apply validate_lines_sound in Hf as [[] | (k & l & _ & _ & _ & He)].
  rewrite strip_not_endswith_space in He. discriminate.
Qed.

(** C1 (evaluation of the code at the scenario): on the three-line text
    whose second line ends in a space, [validate_config] collects no
    finding, prints that validation passed and returns [True], where the
    specification expects [False] with one finding. *)
Theorem validate_config_scenario (self : ConfigRenderer) (w : world) :
  split_on nl scenario_text = [lit "no issues here"; lit "bad line "; lit "clean"; []] /\
  validation_errors scenario_text = [] /\
  validate_config self scenario_text w =
    (Ret true,
     {| fs := fs w; stdout := (stdout w ++ [Validating]) ++ [ValidationPassed] |}).
Proof.
  repeat split; reflexivity.
Qed.

(** C10: a line that is empty or made of white space only, or whose
    stripped form begins with an exclamation mark, is passed over by the
    loop of [validate_config] whatever else it contains: the accumulated
    errors are unchanged by it, and no finding of the validation carries
    its line number. *)
Theorem validate_skips_blank_and_comment_lines
    (config_text : str) (k : nat) (line : str) :
  split_on nl config_text !! k = Some line ->
  forallb isspace line = true \/ startswith (strip line) (lit "!") = true ->
  (forall i lines acc,
      validate_lines i (line :: lines) acc = validate_lines (S i) lines acc) /\
  (forall f, In f (validation_errors config_text) -> fst f <> S k).
Proof.
  intros Hline Hskip.
  assert (Hs : skipped line = true).
  { unfold skipped. destruct Hskip as [H | H].
    - now rewrite (strip_all_space line H).
    - rewrite H. apply orb_true_r. }
  split.
  - intros i lines acc. now apply validate_lines_skip.
  - intros f Hf Heq. unfold validation_errors in Hf.
    apply validate_lines_sound in Hf as [[] | (k' & l & Hk & Hi & Hs' & _)].
    assert (k' = k) by lia. subst k'.
    rewrite Hline in Hk. injection Hk as <-. congruence.
Qed.

Lemma validate_skips_blank_and_comment_lines_witness :
  (forall i lines acc,
      validate_lines i (lit "  ! bad  " :: lines) acc = validate_lines (S i) lines acc) /\
  (forall f,
      In f (validation_errors (lit "hostname r1 " ++ [nl] ++ lit "  ! bad  ")) ->
      fst f <> 2).
Proof.
  apply (validate_skips_blank_and_comment_lines
           (lit "hostname r1 " ++ [nl] ++ lit "  ! bad  ") 1 (lit "  ! bad  ")).
  - reflexivity.
  - right. reflexivity.
Defined.

End ValidatorFacts.

(** ** The file system *)

Section FileSystemFacts.

Lemma is_dir_root (fsys : filesystem) : is_dir fsys [] = true.
Proof. unfold is_dir. apply bool_decide_eq_true. now left. Qed.

Lemma is_dir_same_dirs (f1 f2 : filesystem) (p : path) :
  dirs f1 = dirs f2 -> is_dir f1 p = is_dir f2 p.
Proof. unfold is_dir. now intros ->. Qed.

Lemma is_dir_new_files (fsys : filesystem) (m : gmap path str) (p : path) :
  is_dir {| dirs := dirs fsys; files := m |} p = is_dir fsys p.
Proof. reflexivity. Qed.

Lemma is_dir_add_dir (p q : path) (w : world) :
  is_dir (fs (add_dir p w)) q = bool_decide (q = p) || is_dir (fs w) q.
Proof.
  unfold is_dir, add_dir. cbn [fs dirs].
  apply Bool.eq_iff_eq_true.
  rewrite orb_true_iff, !bool_decide_eq_true, elem_of_union, elem_of_singleton.
  tauto.
Qed.

Lemma is_dir_add_dir_mono (p q : path) (w : world) :
  is_dir (fs w) q = true -> is_dir (fs (add_dir p w)) q = true.
Proof. rewrite is_dir_add_dir. intros ->. apply orb_true_r. Qed.

(** One step of the walk on a name that is looked up. *)
Lemma walk_step (fsys : filesystem) (cur : path) (name : str) (rest : list str) :
  plain name = true ->
  walk fsys cur (name :: rest) =
  if is_dir fsys (cur ++ [name]) then walk fsys (cur ++ [name]) rest
  else match files fsys !! (cur ++ [name]), rest with
       | Some content, [] => IsFile (cur ++ [name]) content
       | Some _, _ :: _ => NotADir
       | None, [] => Absent (cur ++ [name])
       | None, _ :: _ => NoEnt
       end.
Proof.
  unfold plain. intros H. apply andb_true_iff in H as [Hs Hu].
  cbn [walk]. apply negb_true_iff in Hs, Hu. now rewrite Hs, Hu.
Qed.

(** What the walk has found when it ends on a regular file, on a missing
    last name, or in a directory. *)
Lemma walk_file (fsys : filesystem) (names : list str) :
  forall cur place content,
    walk fsys cur names = IsFile place content ->
    is_dir fsys place = false /\ files fsys !! place = Some content.
Proof.
  induction names as [|name rest IH]; intros cur place content; cbn [walk];
    [discriminate|].
  destruct (stays name); [apply IH|].
  destruct (goes_up name).
  { destruct (is_dir fsys (parent cur)); [apply IH|discriminate]. }
  destruct (is_dir fsys (cur ++ [name])) eqn:Ed; [apply IH|].
  destruct (files fsys !! (cur ++ [name])) eqn:Ef, rest; try discriminate.
  intros [= <- <-]. now split.
Qed.

Lemma walk_absent (fsys : filesystem) (names : list str) :
  forall cur place,
    walk fsys cur names = Absent place ->
    is_dir fsys place = false /\ files fsys !! place = None.
Proof.
  induction names as [|name rest IH]; intros cur place; cbn [walk]; [discriminate|].
  destruct (stays name); [apply IH|].
  destruct (goes_up name).
  { destruct (is_dir fsys (parent cur)); [apply IH|discriminate]. }
  destruct (is_dir fsys (cur ++ [name])) eqn:Ed; [apply IH|].
  destruct (files fsys !! (cur ++ [name])) eqn:Ef, rest; try discriminate.
  intros [= <-]. now split.
Qed.

Lemma walk_dir (fsys : filesystem) (names : list str) :
  forall cur place,
    is_dir fsys cur = true ->
    walk fsys cur names = IsDir place ->
    is_dir fsys place = true.
Proof.
  induction names as [|name rest IH]; intros cur place Hc; cbn [walk].
  - now intros [= <-].
  - destruct (stays name); [now apply IH|].
    destruct (goes_up name).
    { destruct (is_dir fsys (parent cur)) eqn:Ep; [now apply IH|discriminate]. }
    destruct (is_dir fsys (cur ++ [name])) eqn:Ed; [now apply IH|].
    destruct (files fsys !! (cur ++ [name])), rest; discriminate.
Qed.

(** A walk that ends in a directory goes on from there. *)
Lemma walk_app_dir (fsys : filesystem) (a b : list str) :
  forall cur place,
    walk fsys cur a = IsDir place ->
    walk fsys cur (a ++ b) = walk fsys place b.
Proof.
  induction a as [|name rest IH]; intros cur place; cbn [walk app].
  - now intros [= <-].
  - destruct (stays name); [apply IH|].
    destruct (goes_up name).
    { destruct (is_dir fsys (parent cur)); [apply IH|discriminate]. }
    destruct (is_dir fsys (cur ++ [name])); [apply IH|].
    destruct (files fsys !! (cur ++ [name])), rest; discriminate.
Qed.

(** After a write at the place a path resolves to, the path resolves to
    the regular file written. *)
Lemma walk_written (fsys : filesystem) (names : list str) (content : str) :
  forall cur place,
    (exists old, walk fsys cur names = IsFile place old) \/
    walk fsys cur names = Absent place ->
    walk {| dirs := dirs fsys; files := <[place := content]> (files fsys) |} cur names =
    IsFile place content.
Proof.
  induction names as [|name rest IH]; intros cur place; cbn [walk].
  - intros [[old H] | H]; discriminate H.
  - destruct (stays name); [apply IH|].
    destruct (goes_up name).
    { rewrite is_dir_new_files.
      destruct (is_dir fsys (parent cur)); [apply IH|].
      intros [[old H] | H]; discriminate H. }
    rewrite is_dir_new_files.
    destruct (is_dir fsys (cur ++ [name])); [apply IH|].
    intros H.
    assert (Hp : place = cur ++ [name] /\ rest = []).
    { destruct (files fsys !! (cur ++ [name])), rest, H as [[old H] | H];
        try discriminate H; injection H; auto. }
    destruct Hp as [-> ->]. cbn [files].
    now rewrite lookup_insert_eq.
Qed.

(** Creating the directory whose name was missing makes the path resolve
    to it. *)
Lemma walk_created (w : world) (names : list str) :
  forall cur place,
    walk (fs w) cur names = Absent place ->
    walk (fs (add_dir place w)) cur names = IsDir place.
Proof.
  induction names as [|name rest IH]; intros cur place; cbn [walk]; [discriminate|].
  destruct (stays name); [apply IH|].
  destruct (goes_up name).
  { destruct (is_dir (fs w) (parent cur)) eqn:Ep; [|discriminate].
    rewrite (is_dir_add_dir_mono _ _ _ Ep). apply IH. }
  destruct (is_dir (fs w) (cur ++ [name])) eqn:Ed.
  - rewrite (is_dir_add_dir_mono _ _ _ Ed). apply IH.
  - destruct (files (fs w) !! (cur ++ [name])), rest; try discriminate.
    intros [= <-]. rewrite is_dir_add_dir.
    rewrite bool_decide_eq_true_2 by reflexivity. reflexivity.
Qed.

Lemma walk_add_dir_kept (w : world) (added : path) (names : list str) :
  forall cur r,
    walk (fs w) cur names = r ->
    untouched_by added r ->
    walk (fs (add_dir added w)) cur names = r.
Proof.
  induction names as [|name rest IH]; intros cur r; cbn [walk]; [auto|].
  destruct (stays name); [apply IH|].
  destruct (goes_up name).
  { destruct (is_dir (fs w) (parent cur)) eqn:Ep.
    - rewrite (is_dir_add_dir_mono _ _ _ Ep). apply IH.
    - intros <- []. }
  destruct (is_dir (fs w) (cur ++ [name])) eqn:Ed.
  - rewrite (is_dir_add_dir_mono _ _ _ Ed). apply IH.
  - intros Hr Hu.
    assert (Hne : cur ++ [name] <> added).
    { destruct (files (fs w) !! (cur ++ [name])), rest; subst r; cbn in Hu;
        try contradiction; exact Hu. }
    rewrite is_dir_add_dir, Ed, bool_decide_eq_false_2 by exact Hne.
    exact Hr.
Qed.

End FileSystemFacts.

(** ** Section renderer and composer *)

Section RendererFacts.

Variables Document Template : Type.
Variable get_template : filesystem -> path -> str -> lib Template.
Variable template_render : filesystem -> path -> Template -> Document -> lib str.

Local Abbreviation render1 := (render_template Document Template get_template template_render).
Local Abbreviation loop := (render_loop Document Template get_template template_render).
Local Abbreviation render_all :=
  (render_all_templates Document Template get_template template_render).
Local Abbreviation text_of := (section_text Document Template get_template template_render).
Local Abbreviation diag_of := (section_diag Document Template get_template template_render).
Local Abbreviation trace_of := (section_trace Document Template get_template template_render).
Local Abbreviation init := ConfigRenderer_init.

Lemma emit_nil (w : world) : emit w [] = w.
Proof. destruct w. unfold emit. simpl. now rewrite app_nil_r. Qed.

Lemma emit_emit (w : world) (a b : list message) :
  emit (emit w a) b = emit w (a ++ b).
Proof. unfold emit. simpl. now rewrite app_assoc. Qed.

(** What [render_template] does on every case of its [try]. *)
Lemma render_template_cases (self : ConfigRenderer) (name : str) (data : Document) (w : world) :
  exists text diag,
    render1 self name data w = (Ret text, emit w diag) /\
    match dict_get (template_files self) name with
    | None => text = [] /\ diag = [RenderError name (KeyError name)]
    | Some file =>
        match get_template (fs w) (templates_dir self) file with
        | Fails (TemplateNotFound _) =>
            text = [] /\ diag = [TemplateNotFoundWarning file]
        | Fails e => text = [] /\ diag = [RenderError name e]
        | Done template =>
            match template_render (fs w) (templates_dir self) template data with
            | Fails (TemplateNotFound _) =>
                text = [] /\ diag = [TemplateNotFoundWarning file]
            | Fails e => text = [] /\ diag = [RenderError name e]
            | Done rendered => text = rendered /\ diag = []
            end
        end
    end.
Proof.
  unfold render_template, try_except, bind, of_lib, ret, raise, print, emit.
  destruct (dict_get (template_files self) name) as [file|]; simpl.
  - destruct (get_template (fs w) (templates_dir self) file) as [t|e]; simpl.
    + destruct (template_render (fs w) (templates_dir self) t data) as [r|e]; simpl.
      * exists r, []. split; [|now split]. rewrite app_nil_r. now destruct w.
      * destruct e; simpl; eexists _, _; (split; [reflexivity|now split]).
    + destruct e; simpl; eexists _, _; (split; [reflexivity|now split]).
  - eexists _, _. split; [reflexivity|now split].
Qed.

Lemma render_template_run (self : ConfigRenderer) (name : str) (data : Document) (w : world) :
  render1 self name data w =
    (Ret (text_of self data (fs w) name), emit w (diag_of self data (fs w) name)).
Proof.
  destruct (render_template_cases self name data w) as (t & d & Hr & Hc).
  destruct (render_template_cases self name data {| fs := fs w; stdout := [] |})
    as (t0 & d0 & Hr0 & Hc0).
  simpl in Hc0.
  assert (t0 = t /\ d0 = d) as [-> ->].
  { destruct (dict_get _ _); [|intuition congruence].
    destruct (get_template _ _ _) as [tm|e].
    - destruct (template_render _ _ _ _) as [r|e]; [intuition congruence|].
      destruct e; intuition congruence.
    - destruct e; intuition congruence. }
  unfold section_text, section_diag. rewrite Hr0. simpl. exact Hr.
Qed.

(** The loop appends, in the order of [names], the texts that are kept, and
    touches nothing but standard output. *)
Lemma render_loop_run (self : ConfigRenderer) (data : Document) (names : list str) :
  forall (acc : list str) (w : world),
    loop self data names acc w =
      (Ret (acc ++ List.filter kept (map (text_of self data (fs w)) names)),
       emit w (trace_of self data (fs w) names)).
Proof.
  induction names as [|n names IH]; intros acc w; simpl.
  - unfold ret. now rewrite app_nil_r, emit_nil.
  - unfold bind at 1. unfold print at 1. unfold bind at 1.
    rewrite render_template_run. simpl.
    rewrite IH. simpl. rewrite emit_emit.
    unfold kept at 2.
    destruct (truthy (strip (text_of self data (fs w) n))); simpl.
    + rewrite <- app_assoc. simpl. f_equal.
      unfold emit. simpl. now rewrite <- !app_assoc.
    + f_equal. unfold emit. simpl. now rewrite <- !app_assoc.
Qed.

(** [str.join] with a newline: the first text as it is, each later one
    after one newline. *)
Lemma join_newline (xs : list str) :
  join [nl] xs =
  match xs with
  | [] => []
  | first :: others => first ++ flat_map (fun text => nl :: text) others
  end.
Proof.
  induction xs as [|x xs IH]; [reflexivity|].
  cbn [join]. destruct xs as [|y ys]; [cbn; now rewrite app_nil_r|].
  rewrite IH. reflexivity.
Qed.

Lemma join_compose (texts : list str) :
  join [nl] (List.filter kept texts) = compose_spec texts.
Proof. unfold compose_spec. apply join_newline. Qed.

(** The whole of [render_all_templates] in one equation. *)
Lemma render_all_templates_run (self : ConfigRenderer) (data : Document)
    (device_name : str) (output_file : option path) (w : world) :
  let dest := destination self device_name output_file in
  let composed :=
    compose_spec (map (text_of self data (fs w)) (dict_keys (template_files self))) in
  let w1 :=
    emit w (RenderingTemplates ::
            trace_of self data (fs w) (dict_keys (template_files self))) in
  render_all self data device_name output_file w =
    match write_target (fs w) dest with
    | Some place =>
        (Ret composed, emit (put_file place composed w1) [RenderedSuccessfully dest])
    | None => (Raise (Exc (write_error (fs w) dest)), w1)
    end.
Proof.
  intros dest composed w1.
  unfold render_all_templates. unfold bind at 1. unfold print at 1.
  unfold bind at 1. rewrite render_loop_run. simpl.
  change {| fs := fs w; stdout := stdout w ++ [RenderingTemplates] |}
    with (emit w [RenderingTemplates]).
  rewrite emit_emit. simpl. fold w1.
  fold (destination self device_name output_file). fold dest.
  rewrite join_compose. fold composed.
  unfold bind at 1. unfold open_write, write_target, write_error.
  change (fs w1) with (fs w).
  destruct (stat (fs w) dest); reflexivity.
Qed.

Lemma filter_kept_map_filter {A} (f : A -> str) (names : list A) :
  List.filter kept (map f (List.filter (fun n => kept (f n)) names)) =
  List.filter kept (map f names).
Proof.
  induction names as [|n names IH]; simpl; [reflexivity|].
  destruct (kept (f n)) eqn:E; simpl; rewrite ?E, IH; reflexivity.
Qed.

Lemma filter_sublist {A} (p : A -> bool) (l : list A) :
  sublist (List.filter p l) l.
Proof.
  induction l as [|x l IH]; simpl; [constructor|].
  destruct (p x); now constructor.
Qed.

Lemma put_file_lookup (p : path) (content : str) (w : world) (ms : list message) :
  files (fs (emit (put_file p content w) ms)) !! p = Some content.
Proof. simpl. apply lookup_insert_eq. Qed.


(** The text read back at a path after a write at the place it resolves
    to. *)
Lemma content_written (fsys : filesystem) (p place : path) (content : str) :
  write_target fsys p = Some place ->
  content_at {| dirs := dirs fsys; files := <[place := content]> (files fsys) |} p =
    Some content.
Proof.
  unfold write_target, content_at, stat. intros H.
  rewrite (walk_written fsys p content [] place); [reflexivity|].
  destruct (walk fsys [] p); try discriminate H; injection H as ->; eauto.
Qed.

Lemma writable_target (fsys : filesystem) (p : path) :
  writable fsys p = true <-> exists place, write_target fsys p = Some place.
Proof.
  unfold writable, write_target.
  destruct (stat fsys p); split; try discriminate; eauto; now intros [? ?].
Qed.

(** On a writable destination [render_all_templates] returns and writes the
    composition of the section texts. *)
Lemma composed_texts (self : ConfigRenderer) (data : Document) (device_name : str)
    (output_file : option path) (w : world) :
  writable (fs w) (destination self device_name output_file) = true ->
  fst (loop self data (dict_keys (template_files self)) [] w) =
    Ret (List.filter kept
           (map (text_of self data (fs w)) (dict_keys (template_files self)))) /\
  fst (render_all self data device_name output_file w) =
    Ret (compose_spec
           (map (text_of self data (fs w)) (dict_keys (template_files self)))) /\
  content_at (fs (snd (render_all self data device_name output_file w)))
    (destination self device_name output_file) =
    Some (compose_spec
            (map (text_of self data (fs w)) (dict_keys (template_files self)))).
Proof.
  intros Hw. apply writable_target in Hw as (place & Hp).
  pose proof (render_all_templates_run self data device_name output_file w) as Hrun.
  cbv zeta in Hrun. rewrite Hp in Hrun.
  repeat split.
  - now rewrite render_loop_run.
  - now rewrite Hrun.
  - rewrite Hrun. unfold snd. cbn [emit put_file fs].
    now apply content_written.
Qed.

(** The composed text is stored at the place the destination resolves
    to. *)
Lemma composed_stored (self : ConfigRenderer) (data : Document) (device_name : str)
    (output_file : option path) (w : world) (place : path) :
  write_target (fs w) (destination self device_name output_file) = Some place ->
  files (fs (snd (render_all self data device_name output_file w))) !! place =
    Some (compose_spec
            (map (text_of self data (fs w)) (dict_keys (template_files self)))).
Proof.
  intros Hp.
  pose proof (render_all_templates_run self data device_name output_file w) as Hrun.
  cbv zeta in Hrun. rewrite Hp in Hrun. rewrite Hrun.
  unfold snd. apply put_file_lookup.
Qed.

(** C2: whatever the input document, the texts accumulated by the loop are,
    in registry order, the untrimmed rendered texts of exactly the sections
    whose text is non-empty after trimming; an omitted section leaves
    nothing behind (composing over the registry without the omitted entries
    gives the same text) and the kept texts are a subsequence of the
    rendered ones; when the destination can be written, the text returned,
    and read back at the destination, is the first kept text followed by
    each later one after one newline. *)
Theorem composed_configuration_is_ordered_join
    (self : ConfigRenderer) (data : Document) (device_name : str)
    (output_file : option path) (w : world) :
  let names := dict_keys (template_files self) in
  let texts := map (text_of self data (fs w)) names in
  let dest := destination self device_name output_file in
  fst (loop self data names [] w) = Ret (List.filter kept texts) /\
  compose_spec texts =
    compose_spec (map (text_of self data (fs w))
                    (List.filter (fun n => kept (text_of self data (fs w) n)) names)) /\
  sublist (List.filter kept texts) texts /\
  (writable (fs w) dest = true ->
   fst (render_all self data device_name output_file w) = Ret (compose_spec texts) /\
   content_at (fs (snd (render_all self data device_name output_file w))) dest =
     Some (compose_spec texts)).
Proof.
  intros names texts dest.
  split; [now rewrite render_loop_run|].
  split; [unfold compose_spec; now rewrite filter_kept_map_filter|].
  split; [apply filter_sublist|].
  intros Hw.
  destruct (composed_texts self data device_name output_file w Hw) as (_ & Hr & Hc).
  now split.
Qed.

(** The text of a section, read off one run of [render_template]. *)
Lemma section_text_of_run (self : ConfigRenderer) (name : str) (data : Document)
    (w : world) (text : str) (w' : world) :
  render1 self name data w = (Ret text, w') ->
  text_of self data (fs w) name = text.
Proof.
  rewrite render_template_run. congruence.
Qed.

(** C4: with the registry interfaces -> ok.tmpl, vlans -> missing.tmpl,
    where ok.tmpl renders "interface Eth1" for any input and missing.tmpl
    cannot be resolved, the vlans entry contributes the empty text (and a
    warning), the interfaces entry its text, and for every input document
    the composed configuration, returned and written, is exactly
    "interface Eth1". *)
Theorem scenario_unresolvable_section_omitted
    (self : ConfigRenderer) (data : Document) (device_name : str)
    (output_file : option path) (w : world) (template : Template) (n : str) :
  template_files self = scenario_registry ->
  get_template (fs w) (templates_dir self) (lit "ok.tmpl") = Done template ->
  (forall d, template_render (fs w) (templates_dir self) template d =
             Done (lit "interface Eth1")) ->
  get_template (fs w) (templates_dir self) (lit "missing.tmpl") =
    Fails (TemplateNotFound n) ->
  render1 self (lit "vlans") data w =
    (Ret [], emit w [TemplateNotFoundWarning (lit "missing.tmpl")]) /\
  render1 self (lit "interfaces") data w = (Ret (lit "interface Eth1"), w) /\
  fst (loop self data (dict_keys (template_files self)) [] w) =
    Ret [lit "interface Eth1"] /\
  join [nl] [lit "interface Eth1"] = lit "interface Eth1" /\
  (writable (fs w) (destination self device_name output_file) = true ->
   fst (render_all self data device_name output_file w) = Ret (lit "interface Eth1") /\
   content_at (fs (snd (render_all self data device_name output_file w)))
     (destination self device_name output_file) = Some (lit "interface Eth1") /\
   (forall place,
       write_target (fs w) (destination self device_name output_file) = Some place ->
       files (fs (snd (render_all self data device_name output_file w))) !! place =
         Some (lit "interface Eth1"))).
Proof.
  intros Hreg Hok Hrender Hmiss.
  assert (Hv : render1 self (lit "vlans") data w =
               (Ret [], emit w [TemplateNotFoundWarning (lit "missing.tmpl")])).
  { destruct (render_template_cases self (lit "vlans") data w) as (t & d & Hr & Hc).
    rewrite Hreg in Hc.
    change (dict_get scenario_registry (lit "vlans")) with (Some (lit "missing.tmpl")) in Hc.
    cbv beta iota in Hc. rewrite Hmiss in Hc. destruct Hc as [-> ->]. exact Hr. }
  assert (Hi : render1 self (lit "interfaces") data w = (Ret (lit "interface Eth1"), w)).
  { destruct (render_template_cases self (lit "interfaces") data w) as (t & d & Hr & Hc).
    rewrite Hreg in Hc.
    change (dict_get scenario_registry (lit "interfaces")) with (Some (lit "ok.tmpl")) in Hc.
    cbv beta iota in Hc. rewrite Hok, Hrender in Hc. destruct Hc as [-> ->].
    now rewrite emit_nil in Hr. }
  pose proof (section_text_of_run _ _ _ _ _ _ Hv) as Tv.
  pose proof (section_text_of_run _ _ _ _ _ _ Hi) as Ti.
  assert (Hl : fst (loop self data (dict_keys (template_files self)) [] w) =
               Ret [lit "interface Eth1"]).
  { rewrite render_loop_run, Hreg.
    change (dict_keys scenario_registry) with [lit "interfaces"; lit "vlans"].
    cbn [map]. rewrite Tv, Ti. reflexivity. }
  split; [exact Hv|]. split; [exact Hi|]. split; [exact Hl|]. split; [reflexivity|].
  intros Hw. split; [|split].
  - destruct (composed_texts self data device_name output_file w Hw) as (_ & Hr & _).
    rewrite Hreg in Hr.
    change (dict_keys scenario_registry) with [lit "interfaces"; lit "vlans"] in Hr.
    cbn [map] in Hr. rewrite Tv, Ti in Hr. exact Hr.
  - destruct (composed_texts self data device_name output_file w Hw) as (_ & _ & Hf).
    rewrite Hreg in Hf.
    change (dict_keys scenario_registry) with [lit "interfaces"; lit "vlans"] in Hf.
    cbn [map] in Hf. rewrite Tv, Ti in Hf. exact Hf.
  - intros place Hp.
    pose proof (composed_stored self data device_name output_file w place Hp) as Hf.
    rewrite Hreg in Hf.
    change (dict_keys scenario_registry) with [lit "interfaces"; lit "vlans"] in Hf.
    cbn [map] in Hf. rewrite Tv, Ti in Hf. exact Hf.
Qed.

Lemma announced_app (a b : list message) :
  announced (a ++ b) = announced a ++ announced b.
Proof. unfold announced. apply flat_map_app. Qed.

(** [render_template] announces no section itself. *)
Lemma announced_diag (self : ConfigRenderer) (data : Document) (fsys : filesystem)
    (name : str) :
  announced (diag_of self data fsys name) = [].
Proof.
  unfold section_diag.
  destruct (render_template_cases self name data {| fs := fsys; stdout := [] |})
    as (t & d & Hr & Hc).
  rewrite Hr. simpl. simpl in Hc.
  destruct (dict_get _ _); [|destruct Hc as [_ ->]; reflexivity].
  destruct (get_template _ _ _) as [tm|e].
  - destruct (template_render _ _ _ _) as [r|e];
      [destruct Hc as [_ ->]; reflexivity|].
    destruct e; destruct Hc as [_ ->]; reflexivity.
  - destruct e; destruct Hc as [_ ->]; reflexivity.
Qed.

(** One announcement, hence one call of [render_template], per name. *)
Lemma announced_trace (self : ConfigRenderer) (data : Document) (fsys : filesystem)
    (names : list str) :
  announced (trace_of self data fsys names) = names.
Proof.
  induction names as [|n names IH]; [reflexivity|].
  unfold section_trace. cbn [flat_map].
  change (flat_map _ names) with (trace_of self data fsys names).
  change (announced ((RenderingSection n :: diag_of self data fsys n) ++
                     trace_of self data fsys names))
    with (n :: announced (diag_of self data fsys n ++ trace_of self data fsys names)).
  now rewrite announced_app, announced_diag, IH.
Qed.

(** C3 (amended): [render_all_templates] calls the section renderer once
    per registry entry, in registry order, and its accumulation loop
    changes nothing but standard output; the function itself then writes
    the composed text to its destination, and that write is its only
    effect on storage: the directories are as before, and the files are
    as before but for the composed text at the place the destination path
    resolves to (nothing at all changes when the destination cannot be
    opened). *)
Theorem render_all_templates_storage_effect
    (self : ConfigRenderer) (data : Document) (device_name : str)
    (output_file : option path) (w : world) :
  let dest := destination self device_name output_file in
  let texts := map (text_of self data (fs w)) (dict_keys (template_files self)) in
  let w' := snd (render_all self data device_name output_file w) in
  (forall names acc,
      snd (loop self data names acc w) = emit w (trace_of self data (fs w) names)) /\
  announced (stdout w') = announced (stdout w) ++ dict_keys (template_files self) /\
  dirs (fs w') = dirs (fs w) /\
  files (fs w') =
    match write_target (fs w) dest with
    | Some place => <[place := compose_spec texts]> (files (fs w))
    | None => files (fs w)
    end.
Proof.
  intros dest texts w'. subst w'.
  pose proof (render_all_templates_run self data device_name output_file w) as Hrun.
  cbv zeta in Hrun. fold dest texts in Hrun. rewrite Hrun.
  split; [intros names acc; now rewrite render_loop_run|].
  destruct (write_target (fs w) dest) as [place|]; unfold snd.
  - repeat split.
    cbn [emit put_file stdout fs]. rewrite !announced_app.
    change (announced (RenderingTemplates :: ?l)) with (announced l).
    rewrite announced_trace. cbn. now rewrite app_nil_r.
  - repeat split.
    cbn [emit stdout]. rewrite announced_app.
    change (announced (RenderingTemplates :: ?l)) with (announced l).
    now rewrite announced_trace.
Qed.

(** *** The constructor and the file system *)

(** The constructor: the directory exists already, or is created where its
    path resolves to, or the construction fails and changes nothing. *)
Lemma init_cases (t o : str) (w : world) :
  (exists place,
      init t o w = (Ret (constructed t o), w) /\ stat (fs w) (Path o) = IsDir place) \/
  (exists place,
      init t o w = (Ret (constructed t o), add_dir place w) /\
      stat (fs w) (Path o) = Absent place) \/
  (exists e, init t o w = (Raise (Exc e), w) /\ can_mkdir (fs w) (Path o) = false).
Proof.
  unfold ConfigRenderer_init, bind, mkdir_exist_ok, can_mkdir, ret, constructed, five_entries.
  destruct (stat (fs w) (Path o)) as [q c|q|q| |] eqn:E.
  - right. right. eexists. split; reflexivity.
  - left. exists q. split; reflexivity.
  - right. left. exists q. split; reflexivity.
  - right. right. eexists. split; reflexivity.
  - right. right. eexists. split; reflexivity.
Qed.

Lemma init_after_mkdir (t o : str) (w : world) :
  can_mkdir (fs w) (Path o) = true ->
  init t o w = (Ret (constructed t o), after_mkdir (Path o) w).
Proof.
  unfold can_mkdir, ConfigRenderer_init, bind, mkdir_exist_ok, after_mkdir.
  destruct (stat (fs w) (Path o)); try discriminate; reflexivity.
Qed.

Lemma init_failure (t o : str) (w : world) :
  can_mkdir (fs w) (Path o) = false ->
  exists e, init t o w = (Raise (Exc e), w).
Proof.
  unfold can_mkdir, ConfigRenderer_init, bind, mkdir_exist_ok.
  destruct (stat (fs w) (Path o)); try discriminate; eauto.
Qed.

Lemma files_after_mkdir (p : path) (w : world) :
  files (fs (after_mkdir p w)) = files (fs w).
Proof. unfold after_mkdir. now destruct (stat (fs w) p). Qed.

Lemma stdout_after_mkdir (p : path) (w : world) :
  stdout (after_mkdir p w) = stdout w.
Proof. unfold after_mkdir. now destruct (stat (fs w) p). Qed.

Lemma dirs_after_mkdir (p d : path) (w : world) :
  d ∈ dirs (fs (after_mkdir p w)) <->
  d ∈ dirs (fs w) \/ stat (fs w) p = Absent d.
Proof.
  unfold after_mkdir.
  destruct (stat (fs w) p) as [q c|q|q| |] eqn:E;
    try (split; [now left|now intros [?|?]]).
  cbn [add_dir fs dirs]. rewrite elem_of_union, elem_of_singleton.
  split; intros [H|H]; auto; [subst; now right|injection H as ->; now left].
Qed.

(** After the directory has been made, its path resolves to it. *)
Lemma stat_after_mkdir (p place : path) (w : world) :
  mkdir_target (fs w) p = Some place ->
  stat (fs (after_mkdir p w)) p = IsDir place.
Proof.
  unfold mkdir_target, after_mkdir.
  destruct (stat (fs w) p) as [q c|q|q| |] eqn:E; try discriminate; intros [= ->].
  - exact E.
  - exact (walk_created w p [] place E).
Qed.

(** Making a directory leaves every path to a regular file as it was. *)
Lemma stat_after_mkdir_file (p : path) (names : list str) (place : path) (c : str)
    (w : world) :
  stat (fs w) names = IsFile place c ->
  stat (fs (after_mkdir p w)) names = IsFile place c.
Proof.
  intros Hf. unfold after_mkdir.
  destruct (stat (fs w) p) as [q c'|q|q| |] eqn:E; try exact Hf.
  apply (walk_add_dir_kept w q names [] _ Hf). cbn.
  apply walk_file in Hf as [_ Hc]. apply walk_absent in E as [_ Hn].
  congruence.
Qed.

(** The validator always reports success. *)
Lemma validate_config_run (self : ConfigRenderer) (config_text : str) (w : world) :
  validate_config self config_text w = (Ret true, emit w [Validating; ValidationPassed]).
Proof.
  unfold validate_config. rewrite validation_errors_nil.
  unfold bind, print, ret, emit. simpl. now rewrite <- app_assoc.
Qed.

Lemma announced_emit (w : world) (ms : list message) :
  announced (stdout (emit w ms)) = announced (stdout w) ++ announced ms.
Proof. unfold emit. simpl. apply announced_app. Qed.

(** The end of [main]: optional validation, then the closing message. *)
Lemma main_tail_run (self : ConfigRenderer) (config : str) (v : bool) (w : world) :
  (run (if v then
          do validation_passed <- validate_config self config;
          if negb validation_passed then sys_exit 1 else ret tt
        else ret tt);
   print RenderingComplete) w =
  (Ret tt,
   emit w ((if v then [Validating; ValidationPassed] else []) ++ [RenderingComplete])).
Proof.
  destruct v; unfold bind; rewrite ?validate_config_run; simpl;
    unfold print, ret, emit; simpl; now rewrite <- ?app_assoc.
Qed.

Lemma announced_main_tail (v : bool) :
  announced ((if v then [Validating; ValidationPassed] else []) ++ [RenderingComplete]) = [].
Proof. now destruct v. Qed.

(** *** The output directory *)

Lemma config_file_name_plain (device_name : str) :
  ~ In slash device_name ->
  forall p, path_div p (config_file_name device_name) = p ++ [config_file_name device_name].
Proof.
  intros Hs p. unfold path_div, config_file_name.
  assert (Hno : ~ In slash (device_name ++ lit "_config.txt")).
  { intros Hin. apply in_app_iff in Hin as [Hin | Hin]; [auto|].
    cbn in Hin. unfold slash in Hin.
    repeat (destruct Hin as [Hin | Hin]; [discriminate|]). exact Hin. }
  assert (Hstart : startswith (device_name ++ lit "_config.txt") [slash] = false).
  { destruct device_name as [|c d]; [reflexivity|].
    cbn [app startswith]. destruct (N.eqb_spec slash c) as [<-|_]; [|reflexivity].
    exfalso. apply Hs. now left. }
  rewrite Hstart. unfold parts. rewrite (split_on_absent _ _ Hno).
  cbn [List.filter].
  assert (Ht : truthy (device_name ++ lit "_config.txt") = true)
    by (destruct device_name; reflexivity).
  rewrite Ht. cbn [andb].
  rewrite bool_decide_eq_false_2; [reflexivity|].
  intros Heq. apply (f_equal (@length N)) in Heq.
  rewrite length_app in Heq. cbn in Heq. lia.
Qed.

Lemma parent_snoc (p : path) (x : str) : parent (p ++ [x]) = p.
Proof. apply removelast_last. Qed.

Lemma snoc_neq (p : path) (x : str) : p ++ [x] <> p.
Proof.
  intros H. apply (f_equal (@length str)) in H.
  rewrite length_app in H. cbn in H. lia.
Qed.

Lemma config_file_name_is_plain (device_name : str) :
  plain (config_file_name device_name) = true.
Proof.
  unfold plain, stays, goes_up, config_file_name.
  assert (H : forall s : str,
             (length s < 11)%nat -> device_name ++ lit "_config.txt" <> s).
  { intros s Hs Heq. apply (f_equal (@length N)) in Heq.
    rewrite length_app in Heq. cbn in Heq. lia. }
  rewrite !bool_decide_eq_false_2; [reflexivity|apply H; cbn; lia ..].
Qed.

(** A plain name directly below a directory, where no directory has that
    name, can be opened for writing, and the write lands there. *)
Lemma write_target_child (fsys : filesystem) (d place : path) (name : str) :
  stat fsys d = IsDir place ->
  plain name = true ->
  is_dir fsys (place ++ [name]) = false ->
  write_target fsys (d ++ [name]) = Some (place ++ [name]).
Proof.
  intros Hd Hp Hn. unfold write_target, stat.
  rewrite (walk_app_dir fsys d [name] [] place Hd), (walk_step _ _ _ _ Hp), Hn.
  now destruct (files fsys !! (place ++ [name])).
Qed.

(** C7 (amended): constructing the renderer creates its output directory
    when only the last name of its path is missing, and changes nothing
    when the directory exists already; the default destination, the file
    named after the device directly below the output directory, then has
    an existing parent and, unless a directory has that name, the composed
    text is persisted there. The parent of a custom destination is never
    created: when that destination cannot be opened for writing the call
    raises the error of [open] and storage is unchanged. *)
Theorem output_directory_created_for_default_destination
    (templates_dir output_dir : str) (data : Document) (device_name : str) (w : world)
    (place : path) :
  let dest := Path output_dir ++ [config_file_name device_name] in
  ~ In slash device_name ->
  mkdir_target (fs w) (Path output_dir) = Some place ->
  is_dir (fs w) (place ++ [config_file_name device_name]) = false ->
  (exists self w1,
      init templates_dir output_dir w = (Ret self, w1) /\
      stat (fs w1) (Path output_dir) = IsDir place /\
      files (fs w1) = files (fs w) /\
      (stat (fs w) (Path output_dir) = IsDir place -> w1 = w) /\
      destination self device_name None = dest /\
      parent dest = Path output_dir /\
      fst (render_all self data device_name None w1) =
        Ret (compose_spec (map (text_of self data (fs w1)) five_sections)) /\
      files (fs (snd (render_all self data device_name None w1)))
        !! (place ++ [config_file_name device_name]) =
        Some (compose_spec (map (text_of self data (fs w1)) five_sections)) /\
      content_at (fs (snd (render_all self data device_name None w1))) dest =
        Some (compose_spec (map (text_of self data (fs w1)) five_sections)) /\
      dirs (fs (snd (render_all self data device_name None w1))) = dirs (fs w1)) /\
  (forall self' p w',
      writable (fs w') p = false ->
      fst (render_all self' data device_name (Some p) w') =
        Raise (Exc (write_error (fs w') p)) /\
      fs (snd (render_all self' data device_name (Some p) w')) = fs w').
Proof.
  intros dest Hs Hmk Hnd. split.
  - set (self := constructed templates_dir output_dir).
    assert (Hinit : exists w1,
               init templates_dir output_dir w = (Ret self, w1) /\
               stat (fs w1) (Path output_dir) = IsDir place /\
               files (fs w1) = files (fs w) /\
               (stat (fs w) (Path output_dir) = IsDir place -> w1 = w) /\
               is_dir (fs w1) (place ++ [config_file_name device_name]) = false).
    { destruct (init_cases templates_dir output_dir w)
        as [(q & Hi & Hq) | [(q & Hi & Hq) | (e & _ & Hno)]].
      - unfold mkdir_target in Hmk. rewrite Hq in Hmk. injection Hmk as ->.
        exists w. split; [exact Hi|]. split; [exact Hq|]. split; [reflexivity|].
        split; [reflexivity|exact Hnd].
      - unfold mkdir_target in Hmk. rewrite Hq in Hmk. injection Hmk as ->.
        exists (add_dir place w). split; [exact Hi|].
        split; [exact (walk_created w (Path output_dir) [] place Hq)|].
        split; [reflexivity|]. split; [intros Hd; congruence|].
        rewrite is_dir_add_dir, Hnd, bool_decide_eq_false_2 by apply snoc_neq.
        reflexivity.
      - unfold can_mkdir in Hno. unfold mkdir_target in Hmk.
        destruct (stat (fs w) (Path output_dir)); discriminate. }
    destruct Hinit as (w1 & Hi & Hd & Hfiles & Hidem & Hnd1).
    exists self, w1.
    assert (Hdest : destination self device_name None = dest).
    { change (destination self device_name None)
        with (path_div (Path output_dir) (config_file_name device_name)).
      now apply config_file_name_plain. }
    assert (Hwt : write_target (fs w1) dest =
                  Some (place ++ [config_file_name device_name])).
    { apply write_target_child; auto using config_file_name_is_plain. }
    pose proof (render_all_templates_run self data device_name None w1) as Hrun.
    cbv zeta in Hrun. rewrite Hdest, Hwt in Hrun.
    split; [exact Hi|]. split; [exact Hd|]. split; [exact Hfiles|].
    split; [exact Hidem|]. split; [exact Hdest|]. split; [apply parent_snoc|].
    rewrite Hrun. split; [reflexivity|]. unfold snd. cbn [emit put_file fs files dirs].
    split; [apply lookup_insert_eq|]. split; [|reflexivity].
    now apply content_written.
  - intros self' p w' Hw'.
    pose proof (render_all_templates_run self' data device_name (Some p) w') as Hrun.
    cbv zeta in Hrun. cbn [destination] in Hrun.
    assert (Hn : write_target (fs w') p = None).
    { unfold writable in Hw'. unfold write_target.
      destruct (stat (fs w') p); try discriminate; reflexivity. }
    rewrite Hn in Hrun. rewrite Hrun. split; reflexivity.
Qed.

(** *** The runs of [main] *)

Section MainFacts.

Variable yaml_safe_load : str -> lib Document.

Local Abbreviation load := (load_yaml_input Document yaml_safe_load).
Local Abbreviation main_ :=
  (main Document Template yaml_safe_load get_template template_render).

(** The loader prints without announcing a section, leaves the file system
    alone, returns only when a regular file is read at the input path and
    ends the run with status 1 whenever it fails. *)
Lemma load_cases (self : ConfigRenderer) (input : str) (w : world) :
  exists r ms,
    load self input w = (r, emit w ms) /\ announced ms = [] /\
    match r with
    | Ret _ => unreadable (fs w) input = false
    | Raise x => exit_status (@Raise unit x) = 1%Z
    end.
Proof.
  unfold load_yaml_input, try_except, bind, open_str_read, open_read, raise, of_lib,
    sys_exit, print, ret, unreadable.
  destruct (truthy input); cbn [negb orb].
  - destruct (stat (fs w) (split_on slash input)) eqn:E.
    + destruct (yaml_safe_load content) as [d|e]; simpl.
      * eexists _, [_]. repeat split.
      * destruct e; simpl;
          first [ eexists _, []; rewrite emit_nil; now repeat split
                | eexists _, [_]; now repeat split ].
    + eexists _, []. rewrite emit_nil. repeat split.
    + eexists _, [_]. repeat split.
    + eexists _, []. rewrite emit_nil. repeat split.
    + eexists _, [_]. repeat split.
  - eexists _, [_]. repeat split.
Qed.

(** [main] as the sequence of its three steps and its closing messages. *)
Lemma main_unfold (args : Args) (w : world) :
  main_ args w =
  match init (arg_templates_dir args) (main_output_dir args) w with
  | (Ret renderer, w1) =>
      match load renderer (arg_input_file args) w1 with
      | (Ret data, w2) =>
          match render_all renderer data (arg_device_name args)
                  (Some (main_destination args)) w2 with
          | (Ret config, w3) => (Ret tt, emit w3 (closing_messages (arg_validate args)))
          | (Raise r, w3) => (Raise r, w3)
          end
      | (Raise r, w2) => (Raise r, w2)
      end
  | (Raise r, w1) => (Raise r, w1)
  end.
Proof.
  unfold main. unfold bind at 1.
  fold (main_output_dir args) (main_destination args).
  destruct (init _ _ w) as [[renderer|r] w1]; [|reflexivity].
  unfold bind at 1.
  destruct (load renderer (arg_input_file args) w1) as [[data|r] w2]; [|reflexivity].
  unfold bind at 1.
  destruct (render_all renderer data _ _ w2) as [[config|r] w3]; [|reflexivity].
  apply main_tail_run.
Qed.

(** What [render_all_templates] announces, however it ends. *)
Lemma render_all_templates_announces (self : ConfigRenderer) (data : Document)
    (device_name : str) (output_file : option path) (w : world) :
  announced (stdout (snd (render_all self data device_name output_file w))) =
  announced (stdout w) ++ dict_keys (template_files self).
Proof.
  pose proof (render_all_templates_run self data device_name output_file w) as Hrun.
  cbv zeta in Hrun. rewrite Hrun.
  destruct (write_target _ _); unfold snd.
  - rewrite announced_emit. cbn [put_file stdout]. rewrite announced_emit.
    change (announced (RenderingTemplates :: ?l)) with (announced l).
    rewrite announced_trace. cbn. now rewrite app_nil_r.
  - rewrite announced_emit.
    change (announced (RenderingTemplates :: ?l)) with (announced l).
    now rewrite announced_trace.
Qed.

(** A run of [main] announces the five sections in order, or none when it
    stops before rendering. *)
Lemma main_announces (args : Args) (w : world) :
  exists b : bool,
    announced (stdout (snd (main_ args w))) =
    announced (stdout w) ++ (if b then five_sections else []).
Proof.
  rewrite main_unfold.
  destruct (init_cases (arg_templates_dir args) (main_output_dir args) w)
    as [(q & Hi & _) | [(q & Hi & _) | (e & Hi & _)]]; rewrite Hi.
  3: { exists false. simpl. now rewrite app_nil_r. }
  all: match goal with
       | |- context [load ?self ?input ?w1] =>
           destruct (load_cases self input w1) as (r & ms & Hl & Hms & _)
       end.
  all: rewrite Hl; destruct r as [data|x].
  all: try (exists false; unfold snd; rewrite announced_emit, Hms; reflexivity).
  all: exists true.
  all: match goal with
       | |- context [render_all ?self ?data ?d ?o ?w2] =>
           pose proof (render_all_templates_announces self data d o w2) as Ha;
           destruct (render_all self data d o w2) as [[config|x] w3]
       end.
  all: unfold snd in Ha |- *.
  all: rewrite ?announced_emit; unfold closing_messages;
       rewrite ?announced_main_tail, ?app_nil_r.
  all: rewrite Ha, announced_emit, Hms, app_nil_r; reflexivity.
Qed.

(** C9: the registry of a constructed renderer is the five entries bgp,
    routing_filters, interfaces, vlans, system, mapped to bgp.j2,
    routing_filters.j2, interfaces.j2, vlans.j2, system.j2, in this order
    and with distinct names; the methods only read it, and every call of
    [render_all_templates] on the renderer, as every run of [main] that
    reaches the rendering, renders exactly these five sections in exactly
    this order. *)
Theorem registry_is_five_fixed_sections
    (templates_dir output_dir : str) (w : world) (self : ConfigRenderer) (w1 : world) :
  init templates_dir output_dir w = (Ret self, w1) ->
  template_files self = five_entries /\
  dict_keys (template_files self) = five_sections /\
  NoDup (dict_keys (template_files self)) /\
  (forall name,
      dict_get (template_files self) name <> None <-> In name five_sections) /\
  (forall (data : Document) device_name output_file w2,
      announced (stdout (snd (render_all self data device_name output_file w2))) =
      announced (stdout w2) ++ five_sections) /\
  (forall args w0, exists b : bool,
      announced (stdout (snd (main_ args w0))) =
      announced (stdout w0) ++ (if b then five_sections else [])).
Proof.
  intros Hi.
  assert (Hs : self = constructed templates_dir output_dir).
  { destruct (init_cases templates_dir output_dir w)
      as [(q & H & _) | [(q & H & _) | (e & H & _)]];
      rewrite H in Hi; congruence. }
  subst self. cbn [constructed template_files].
  split; [reflexivity|]. split; [reflexivity|].
  split; [apply (bool_decide_unpack _); vm_compute; reflexivity|].
  split.
  - intros name. unfold dict_get, five_entries, five_sections. cbn [find fst snd In].
    repeat case_bool_decide; subst; cbn; split; intros ?; try congruence; tauto.
  - split.
    + intros data device_name output_file w2.
      apply (render_all_templates_announces (constructed templates_dir output_dir)).
    + intros args w0. apply main_announces.
Qed.

(** C6 (amended): when no regular file can be read at the input path once
    the constructor has made the output directory (a name on the path is
    missing, the path runs through a regular file, or it names a
    directory), the run of [main] ends with exit status 1, renders nothing
    and leaves every file as it was. In any world, [load_yaml_input] on an
    empty path or on a path with a missing name reports that the input
    file was not found and leaves through [sys.exit(1)]; on a path that
    runs through a regular file, or that names a directory, it raises
    [NotADirectoryError], respectively [IsADirectoryError], which it does
    not handle. *)
Theorem missing_input_is_fatal (args : Args) (w : world) :
  unreadable (fs (after_mkdir (Path (main_output_dir args)) w)) (arg_input_file args) =
    true ->
  exit_status (fst (main_ args w)) = 1%Z /\
  files (fs (snd (main_ args w))) = files (fs w) /\
  announced (stdout (snd (main_ args w))) = announced (stdout w) /\
  (forall self w1,
      missing (fs w1) (arg_input_file args) = true ->
      load self (arg_input_file args) w1 =
      (Raise (SystemExit 1), emit w1 [InputNotFound (arg_input_file args)])) /\
  (forall self w1,
      truthy (arg_input_file args) = true ->
      stat (fs w1) (split_on slash (arg_input_file args)) = NotADir ->
      load self (arg_input_file args) w1 = (Raise (Exc NotADirectoryError), w1)) /\
  (forall self w1 place,
      truthy (arg_input_file args) = true ->
      stat (fs w1) (split_on slash (arg_input_file args)) = IsDir place ->
      load self (arg_input_file args) w1 = (Raise (Exc IsADirectoryError), w1)).
Proof.
  intros Hun.
  assert (Hm : exists x w',
             main_ args w = (Raise x, w') /\
             exit_status (@Raise unit x) = 1%Z /\ files (fs w') = files (fs w) /\
             announced (stdout w') = announced (stdout w)).
  { rewrite main_unfold.
    destruct (can_mkdir (fs w) (Path (main_output_dir args))) eqn:Hmk.
    - rewrite init_after_mkdir by exact Hmk.
      destruct (load_cases (constructed (arg_templates_dir args) (main_output_dir args))
                  (arg_input_file args) (after_mkdir (Path (main_output_dir args)) w))
        as (r & ms & Hl & Hms & Hr).
      rewrite Hl. destruct r as [data|x]; [congruence|].
      eexists x, _. split; [reflexivity|]. split; [exact Hr|].
      cbn [emit fs]. split; [apply files_after_mkdir|].
      rewrite announced_emit, Hms, app_nil_r. now rewrite stdout_after_mkdir.
    - destruct (init_failure (arg_templates_dir args) _ w Hmk) as (e & He).
      rewrite He. now exists (Exc e), w. }
  destruct Hm as (x & w' & -> & Hx & Hf & Ha). cbn [fst snd].
  split; [exact Hx|]. split; [exact Hf|]. split; [exact Ha|].
  unfold load_yaml_input, try_except, bind, open_str_read, open_read, raise, missing.
  split; [|split].
  - intros self w1 Hmiss.
    destruct (truthy (arg_input_file args)); [|reflexivity].
    cbn [negb orb] in Hmiss.
    destruct (stat (fs w1) (split_on slash (arg_input_file args)));
      try discriminate Hmiss; reflexivity.
  - intros self w1 -> ->. reflexivity.
  - intros self w1 place -> ->. reflexivity.
Qed.

End MainFacts.

End RendererFacts.
(** ** Change-record update *)

Module ServiceNowFacts.

Import ServiceNow.

Section IntegrationFacts.

Variable requests : list http_request -> http_request -> lib response.
Variable now_isoformat : str.

Local Abbreviation try_update_ := (try_update requests now_isoformat).
Local Abbreviation update_ := (update_change_request requests now_isoformat).
Local Abbreviation main_ := (ServiceNow.main requests now_isoformat).
Local Abbreviation update_request_ := (update_request now_isoformat).

Lemma sent_say (m : ServiceNow.message) (st : session) : sent (say m st) = sent st.
Proof. reflexivity. Qed.

(** The [try] block issues the lookup, and after it at most one update,
    whose status is the one it was given. *)
Lemma try_update_sent (self : ServiceNowIntegration) (change_number status comments : str)
    (st : session) :
  exists tail,
    sent (snd (try_update_ self change_number status comments st)) =
      sent st ++ lookup_request self change_number :: tail /\
    (tail = [] \/ exists sys_id, tail = [update_request_ self sys_id status comments]).
Proof.
  unfold try_update, send, lookup_request, update_request, table_url. cbn [sent fst snd].
  destruct (requests (sent st) _) as [response|e]; [|exists []; auto].
  destruct (negb (status_code response =? 200)%Z); [exists []; auto|].
  destruct (response_json response) as [data|e]; [|exists []; auto].
  destruct (json_get (lit "result") data) as [result|e]; [|exists []; auto].
  destruct (negb (json_truthy result)); [exists []; auto|].
  destruct (json_first result) as [record|e]; [|exists []; auto].
  destruct (json_item (lit "sys_id") record) as [sys_id|e]; [|exists []; auto].
  cbn [sent].
  destruct (requests _ _) as [update_response|e].
  - destruct (status_code update_response =? 200)%Z; cbn [snd sent say];
      (eexists; split; [now rewrite <- app_assoc|right; now exists sys_id]).
  - cbn [snd sent]. eexists. split; [now rewrite <- app_assoc|right; now exists sys_id].
Qed.

Lemma update_change_request_sent (self : ServiceNowIntegration)
    (change_number status comments : str) (st : session) :
  sent (snd (update_ self change_number status comments st)) =
  sent (snd (try_update_ self change_number status comments st)).
Proof.
  unfold update_change_request.
  destruct (try_update_ self change_number status comments st) as [[b|e] st']; reflexivity.
Qed.

(** C8: the outcome of the pipeline is mapped to the label Review for
    success, Authorize for failure, Cancelled for cancelled and Authorize
    for every other value; every update request issued by a run of [main]
    carries exactly the label of the outcome read from the environment as
    its state, and when the credentials are configured and the lookup
    finds the change record, the run issues the lookup and then that one
    update. *)
Theorem status_label_passed_to_update :
  snow_status (lit "success") = lit "Review" /\
  snow_status (lit "failure") = lit "Authorize" /\
  snow_status (lit "cancelled") = lit "Cancelled" /\
  (forall s,
      s <> lit "success" -> s <> lit "failure" -> s <> lit "cancelled" ->
      snow_status s = lit "Authorize") /\
  (forall env st url sys_id a data,
      In (Put url sys_id a data) (sent (snd (main_ env st))) ->
      In (Put url sys_id a data) (sent st) \/
      state data = snow_status (workflow_status env)) /\
  (forall env st response data result record sys_id,
      configured env = true ->
      requests (sent st) (lookup_request (integration_of env) (change_number env)) =
        Done response ->
      status_code response = 200%Z ->
      response_json response = Done data ->
      json_get (lit "result") data = Done result ->
      json_truthy result = true ->
      json_first result = Done record ->
      json_item (lit "sys_id") record = Done sys_id ->
      sent (snd (main_ env st)) =
        sent st ++
        [lookup_request (integration_of env) (change_number env);
         update_request_ (integration_of env) sys_id
           (snow_status (workflow_status env)) (comments_of env)]).
Proof.
  split; [reflexivity|]. split; [reflexivity|]. split; [reflexivity|]. split; [|split].
  - intros s H1 H2 H3. unfold snow_status, dict_get, status_mapping. cbn [find fst].
    repeat case_bool_decide; try congruence. reflexivity.
  - intros env st url sys_id a data Hin.
    assert (Hsent : sent (snd (main_ env st)) = sent st \/
                    sent (snd (main_ env st)) =
                      sent (snd (try_update_ (integration_of env) (change_number env)
                                   (snow_status (workflow_status env))
                                   (comments_of env) st))).
    { unfold ServiceNow.main. fold (configured env).
      destruct (configured env); [|now left]. right. cbn [negb].
      fold (integration_of env) (comments_of env).
      rewrite <- update_change_request_sent.
      destruct (update_ _ _ _ _ st) as [success st']. now destruct success. }
    destruct Hsent as [Hs | Hs]; rewrite Hs in Hin; [now left|].
    destruct (try_update_sent (integration_of env) (change_number env)
                (snow_status (workflow_status env)) (comments_of env) st)
      as (tail & Ht & Htail).
    rewrite Ht in Hin. apply in_app_iff in Hin as [Hin | [Hin | Hin]].
    + now left.
    + discriminate Hin.
    + right. destruct Htail as [-> | (id & ->)]; [destruct Hin|].
      destruct Hin as [Hin | []]. unfold update_request in Hin.
      injection Hin as _ _ _ <-. reflexivity.
  - intros env st response data result record sys_id Hc Hget H200 Hjson Hres Htruthy
      Hfirst Hitem.
    unfold ServiceNow.main. fold (configured env). rewrite Hc. cbn [negb].
    fold (integration_of env) (comments_of env).
    assert (Hu : sent (snd (update_ (integration_of env) (change_number env)
                              (snow_status (workflow_status env)) (comments_of env) st)) =
                 sent st ++
                 [lookup_request (integration_of env) (change_number env);
                  update_request_ (integration_of env) sys_id
                    (snow_status (workflow_status env)) (comments_of env)]).
    { rewrite update_change_request_sent.
      unfold try_update, send. cbn [sent].
      fold (table_url (integration_of env)).
      fold (lookup_request (integration_of env) (change_number env)).
      rewrite Hget, H200. cbn [Z.eqb Pos.eqb negb]. rewrite Hjson, Hres, Htruthy. cbn [negb].
      rewrite Hfirst, Hitem.
      destruct (requests (sent st ++ _) _) as [update_response|e].
      - destruct (status_code update_response =? 200)%Z; cbn [snd sent say];
          rewrite <- app_assoc; reflexivity.
      - cbn [snd sent]. rewrite <- app_assoc. reflexivity. }
    destruct (update_ _ _ _ _ st) as [success st']. cbn [snd] in Hu.
    now destruct success.
Qed.

End IntegrationFacts.

End ServiceNowFacts.

(** ** The properties on concrete runs *)

Lemma composed_configuration_is_ordered_join_witness :
  writable (fs empty_world) [lit "device_config.txt"] = true /\
  fst (render_loop unit str toy_get_two toy_render
         (constructed (lit "templates/arista") (lit "output")) tt five_sections []
         empty_world) =
    Ret [lit "interface Eth1"; lit "vlan 10"] /\
  fst (render_all_templates unit str toy_get_two toy_render
         (constructed (lit "templates/arista") (lit "output")) tt
         (lit "device") (Some [lit "device_config.txt"]) empty_world) =
    Ret (lit "interface Eth1" ++ nl :: lit "vlan 10") /\
  content_at
    (fs (snd (render_all_templates unit str toy_get_two toy_render
                (constructed (lit "templates/arista") (lit "output")) tt
                (lit "device") (Some [lit "device_config.txt"]) empty_world)))
    [lit "device_config.txt"] =
    Some (lit "interface Eth1" ++ nl :: lit "vlan 10").
Proof.
  split; [reflexivity|].
  destruct (composed_configuration_is_ordered_join unit str toy_get_two toy_render
              (constructed (lit "templates/arista") (lit "output")) tt (lit "device")
              (Some [lit "device_config.txt"]) empty_world) as (Hl & _ & _ & H).
  split; [exact Hl|]. exact (H eq_refl).
Defined.

Lemma scenario_unresolvable_section_omitted_witness :
  fst (render_all_templates unit str toy_get_template toy_render scenario_renderer tt
         (lit "device") (Some [lit "device_config.txt"]) empty_world) =
    Ret (lit "interface Eth1").
Proof.
  destruct (scenario_unresolvable_section_omitted unit str toy_get_template toy_render
              scenario_renderer tt (lit "device") (Some [lit "device_config.txt"])
              empty_world (lit "interface Eth1") (lit "missing.tmpl")
              eq_refl eq_refl (fun _ => eq_refl) eq_refl) as (_ & _ & _ & _ & H).
  exact (proj1 (H eq_refl)).
Defined.


(** C3 (counterexample): composing for the scenario registry with the
    destination [device_config.txt] leaves a file system that differs from
    the one before the call: the composed text has been written. *)
Lemma compose_writes_output_file :
  fs (snd (render_all_templates unit str toy_get_template toy_render scenario_renderer tt
             (lit "device") (Some [lit "device_config.txt"]) empty_world))
    <> fs empty_world /\
  files (fs (snd (render_all_templates unit str toy_get_template toy_render
                    scenario_renderer tt (lit "device")
                    (Some [lit "device_config.txt"]) empty_world)))
    !! [lit "device_config.txt"] = Some (lit "interface Eth1") /\
  files (fs empty_world) !! [lit "device_config.txt"] = None.
Proof.
  split; [|split; reflexivity].
  intros H.
  apply (f_equal (fun f => files f !! [lit "device_config.txt"])) in H.
  vm_compute in H. discriminate H.
Qed.

Lemma render_all_templates_storage_effect_witness :
  files (fs (snd (render_all_templates unit str toy_get_template toy_render
                    scenario_renderer tt (lit "device")
                    (Some [lit "device_config.txt"]) empty_world))) =
  <[ [lit "device_config.txt"] := lit "interface Eth1" ]> (files (fs empty_world)).
Proof.
  destruct (render_all_templates_storage_effect unit str toy_get_template toy_render
              scenario_renderer tt (lit "device") (Some [lit "device_config.txt"])
              empty_world) as (_ & _ & _ & H).
  exact H.
Defined.

Lemma registry_is_five_fixed_sections_witness :
  dict_keys (template_files (constructed (lit "templates/arista") (lit "output"))) =
  five_sections.
Proof.
  destruct (registry_is_five_fixed_sections unit str toy_get_template toy_render
              toy_safe_load (lit "templates/arista") (lit "output") empty_world
              (constructed (lit "templates/arista") (lit "output"))
              (snd (ConfigRenderer_init (lit "templates/arista") (lit "output") empty_world))
              eq_refl) as (_ & H & _).
  exact H.
Defined.

(** C6 (counterexample): in a directory that holds [input.yaml] and no
    directory [out], the input path [out/../input.yaml] does not exist
    (the loader run there reports it as not found), yet the run of [main]
    with this input path and the output directory [out] ends with exit
    status 0 and creates the output file: the constructor has made [out]
    before the input is opened. And the input path [input.yaml/x], which
    does not exist either, makes the loader raise [NotADirectoryError],
    which it does not handle: no message, no [sys.exit]. *)
Lemma missing_input_found_after_constructor :
  stat (fs flat_world) (split_on slash (arg_input_file args_through_output)) = NoEnt /\
  load_yaml_input unit toy_safe_load scenario_renderer
    (arg_input_file args_through_output) flat_world =
    (Raise (SystemExit 1),
     emit flat_world [InputNotFound (arg_input_file args_through_output)]) /\
  fst (main unit str toy_safe_load toy_get_two toy_render args_through_output flat_world) =
    Ret tt /\
  exit_status
    (fst (main unit str toy_safe_load toy_get_two toy_render args_through_output
            flat_world)) = 0%Z /\
  files (fs (snd (main unit str toy_safe_load toy_get_two toy_render args_through_output
                    flat_world)))
    !! [lit "out"; lit "device_config.txt"] =
    Some (lit "interface Eth1" ++ nl :: lit "vlan 10") /\
  files (fs flat_world) !! [lit "out"; lit "device_config.txt"] = None /\
  stat (fs flat_world) (split_on slash (lit "input.yaml/x")) = NotADir /\
  load_yaml_input unit toy_safe_load scenario_renderer (lit "input.yaml/x") flat_world =
    (Raise (Exc NotADirectoryError), flat_world).
Proof.
  repeat (split; [reflexivity|]). reflexivity.
Qed.

Lemma missing_input_is_fatal_witness :
  unreadable (fs (after_mkdir (Path (main_output_dir example_args)) empty_world))
    (arg_input_file example_args) = true /\
  exit_status
    (fst (main unit str toy_safe_load toy_get_template toy_render example_args empty_world))
    = 1%Z.
Proof.
  split; [reflexivity|].
  exact (proj1 (missing_input_is_fatal unit str toy_get_template toy_render toy_safe_load
                  example_args empty_world eq_refl)).
Defined.

(** C7 (counterexample): a renderer constructed with the output directory
    [output] is asked to write to [cr/device_config.txt] where [cr] does
    not exist: the call raises [FileNotFoundError], [cr] is not created
    and nothing is persisted; and constructing a renderer for the output
    directory [a/b] where [a] does not exist raises as well. *)
Lemma custom_destination_parent_not_created :
  fst ((do self <- ConfigRenderer_init (lit "templates/arista") (lit "output");
        render_all_templates unit str toy_get_template toy_render self tt (lit "device")
          (Some [lit "cr"; lit "device_config.txt"])) empty_world) =
    Raise (Exc FileNotFoundError) /\
  is_dir (fs (snd ((do self <- ConfigRenderer_init (lit "templates/arista") (lit "output");
                    render_all_templates unit str toy_get_template toy_render self tt
                      (lit "device") (Some [lit "cr"; lit "device_config.txt"]))
                     empty_world)))
    (parent [lit "cr"; lit "device_config.txt"]) = false /\
  files (fs (snd ((do self <- ConfigRenderer_init (lit "templates/arista") (lit "output");
                   render_all_templates unit str toy_get_template toy_render self tt
                     (lit "device") (Some [lit "cr"; lit "device_config.txt"]))
                    empty_world)))
    !! [lit "cr"; lit "device_config.txt"] = None /\
  ConfigRenderer_init (lit "templates/arista") (lit "a/b") empty_world =
    (Raise (Exc FileNotFoundError), empty_world).
Proof.
  repeat split; reflexivity.
Qed.

Lemma output_directory_created_for_default_destination_witness :
  exists self w1,
    ConfigRenderer_init (lit "templates/arista") (lit "output") empty_world =
      (Ret self, w1) /\
    stat (fs w1) (Path (lit "output")) = IsDir [lit "output"] /\
    destination self (lit "device") None = [lit "output"; lit "device_config.txt"].
Proof.
  assert (Hs : ~ In slash (lit "device")).
  { intros H. vm_compute in H. intuition discriminate. }
  destruct (output_directory_created_for_default_destination unit str toy_get_template
              toy_render (lit "templates/arista") (lit "output") tt (lit "device")
              empty_world [lit "output"] Hs eq_refl eq_refl)
    as [(self & w1 & Hi & Hd & _ & _ & Hdest & _) _].
  exists self, w1. repeat split; assumption.
Defined.

Lemma status_label_passed_to_update_witness :
  ServiceNow.sent
    (snd (ServiceNow.main toy_requests (lit "2025-01-01T00:00:00")
            (toy_environ (Some (lit "success"))) new_session)) =
  [ServiceNow.lookup_request
     (ServiceNow.integration_of (toy_environ (Some (lit "success")))) (lit "CHG0123456");
   ServiceNow.update_request (lit "2025-01-01T00:00:00")
     (ServiceNow.integration_of (toy_environ (Some (lit "success"))))
     (ServiceNow.JStr (lit "abc123")) (lit "Review")
     (ServiceNow.comments_of (toy_environ (Some (lit "success"))))].
Proof.
  destruct (ServiceNowFacts.status_label_passed_to_update toy_requests
              (lit "2025-01-01T00:00:00")) as (_ & _ & _ & _ & _ & H).
  exact (H (toy_environ (Some (lit "success"))) new_session _ _ _ _ _
           eq_refl eq_refl eq_refl eq_refl eq_refl eq_refl eq_refl eq_refl).
Defined.

(** * Further properties of the two scripts *)

(** ** The validator *)

Lemma validate_lines_keeps_errors (lines : list str) :
  forall (i : nat) (acc : list finding), validate_lines i lines acc = acc.
Proof.
  induction lines as [|line lines IH]; intros i acc; [reflexivity|].
  cbn [validate_lines]. rewrite strip_not_endswith_space.
  destruct (negb (truthy (strip line)) || startswith (strip line) (lit "!")); apply IH.
Qed.

(** X1: whatever the text, also one with lines that end in spaces or
    tabs, the loop of [validate_config] adds no error to the ones it
    starts from, and the function prints that the validation passed and
    returns [True] without touching the file system. *)
Theorem validate_config_always_passes
    (self : ConfigRenderer) (config_text : str) (w : world) :
  (forall i lines acc, validate_lines i lines acc = acc) /\
  validate_config self config_text w =
    (Ret true, emit w [Validating; ValidationPassed]).
Proof.
  split; [intros i lines acc; apply validate_lines_keeps_errors|].
  unfold validate_config, validation_errors.
  rewrite validate_lines_keeps_errors.
  unfold bind, print, ret, emit. cbn. now rewrite <- app_assoc.
Qed.

(** ** The constructor *)

Lemma mkdir_target_can (fsys : filesystem) (p place : path) :
  mkdir_target fsys p = Some place -> can_mkdir fsys p = true.
Proof.
  unfold mkdir_target, can_mkdir. destruct (stat fsys p); try discriminate; reflexivity.
Qed.

Lemma is_dir_after_mkdir (p q place : path) (w : world) :
  mkdir_target (fs w) p = Some place ->
  is_dir (fs (after_mkdir p w)) q = true -> q = place \/ is_dir (fs w) q = true.
Proof.
  unfold mkdir_target, after_mkdir.
  destruct (stat (fs w) p); try discriminate; intros [= ->]; [now right|].
  rewrite is_dir_add_dir. intros H.
  apply orb_true_iff in H as [H | H]; [left|now right].
  now apply bool_decide_eq_true in H.
Qed.

Lemma after_mkdir_existing (p place : path) (w : world) :
  stat (fs w) p = IsDir place -> after_mkdir p w = w.
Proof. unfold after_mkdir. now intros ->. Qed.

(** X2: when the path of the output directory resolves to a directory, or
    only its last name is missing, the constructor succeeds, the path
    resolves to a directory afterwards, no file and no output changes, no
    other directory appears, and constructing the renderer a second time
    changes nothing more; when the path resolves to a regular file, has a
    missing name before its last, or runs through a regular file, the
    constructor raises [FileExistsError], [FileNotFoundError],
    respectively [NotADirectoryError], and the world is as before. *)
Theorem constructor_creates_output_directory_once (t o : str) (w : world) :
  (forall place,
      mkdir_target (fs w) (Path o) = Some place ->
      exists w1,
        ConfigRenderer_init t o w = (Ret (constructed t o), w1) /\
        stat (fs w1) (Path o) = IsDir place /\
        files (fs w1) = files (fs w) /\
        stdout w1 = stdout w /\
        (forall q, is_dir (fs w1) q = true -> q = place \/ is_dir (fs w) q = true) /\
        ConfigRenderer_init t o w1 = (Ret (constructed t o), w1)) /\
  (forall place content,
      stat (fs w) (Path o) = IsFile place content ->
      ConfigRenderer_init t o w = (Raise (Exc FileExistsError), w)) /\
  (stat (fs w) (Path o) = NoEnt ->
   ConfigRenderer_init t o w = (Raise (Exc FileNotFoundError), w)) /\
  (stat (fs w) (Path o) = NotADir ->
   ConfigRenderer_init t o w = (Raise (Exc NotADirectoryError), w)).
Proof.
  split; [|split; [|split]].
  - intros place Hmk. exists (after_mkdir (Path o) w).
    pose proof (stat_after_mkdir _ _ _ Hmk) as Hd.
    split; [apply init_after_mkdir; now apply (mkdir_target_can _ _ place)|].
    split; [exact Hd|].
    split; [apply files_after_mkdir|].
    split; [apply stdout_after_mkdir|].
    split; [intros q; now apply is_dir_after_mkdir|].
    rewrite init_after_mkdir.
    + now rewrite (after_mkdir_existing _ _ _ Hd).
    + unfold can_mkdir. now rewrite Hd.
  - intros place content E.
    unfold ConfigRenderer_init, bind, mkdir_exist_ok. now rewrite E.
  - intros E. unfold ConfigRenderer_init, bind, mkdir_exist_ok. now rewrite E.
  - intros E. unfold ConfigRenderer_init, bind, mkdir_exist_ok. now rewrite E.
Qed.

Lemma constructor_creates_output_directory_once_witness :
  mkdir_target (fs empty_world) (Path (lit "output")) = Some [lit "output"] /\
  exists w1,
    ConfigRenderer_init (lit "templates/arista") (lit "output") empty_world =
      (Ret (constructed (lit "templates/arista") (lit "output")), w1) /\
    stat (fs w1) (Path (lit "output")) = IsDir [lit "output"].
Proof.
  split; [reflexivity|].
  destruct (constructor_creates_output_directory_once (lit "templates/arista")
              (lit "output") empty_world) as [H _].
  destruct (H [lit "output"] eq_refl) as (w1 & Hi & Hd & _).
  exists w1. split; assumption.
Defined.

(** ** The input loader *)

Section LoaderExtras.

Variable Document : Type.
Variable yaml_safe_load : str -> lib Document.

Local Abbreviation load := (load_yaml_input Document yaml_safe_load).

(** The empty string is split into one empty name, which stays in the
    working directory. *)
Lemma stat_raw_truthy (fsys : filesystem) (s : str) :
  (forall place, stat fsys (split_on slash s) <> IsDir place) -> truthy s = true.
Proof.
  destruct s as [|c s]; [|reflexivity].
  intros H. exfalso. now apply (H []).
Qed.

(** [load_yaml_input] on a regular file, by the outcome of the parser. *)
Lemma load_run_file (self : ConfigRenderer) (input_file : str) (place : path)
    (text : str) (w : world) :
  stat (fs w) (split_on slash input_file) = IsFile place text ->
  load self input_file w =
  match yaml_safe_load text with
  | Done data => (Ret data, emit w [LoadedInput input_file])
  | Fails FileNotFoundError => (Raise (SystemExit 1), emit w [InputNotFound input_file])
  | Fails (YAMLError msg) => (Raise (SystemExit 1), emit w [YamlParseError (YAMLError msg)])
  | Fails e => (Raise (Exc e), w)
  end.
Proof.
  intros Hstat.
  assert (Ht : truthy input_file = true).
  { apply (stat_raw_truthy (fs w)). intros q. rewrite Hstat. discriminate. }
  unfold load_yaml_input, try_except, bind, open_str_read, open_read, of_lib.
  rewrite Ht, Hstat.
  destruct (yaml_safe_load text) as [d|e]; [reflexivity|].
  destruct e; reflexivity.
Qed.

(** X3: when the input path, as the string it is given, resolves to a
    regular file whose text the YAML parser accepts, [load_yaml_input]
    returns the parsed document, prints that the file was loaded and
    changes nothing else. *)
Theorem load_yaml_input_returns_parsed_document
    (self : ConfigRenderer) (input_file : str) (place : path) (text : str)
    (data : Document) (w : world) :
  stat (fs w) (split_on slash input_file) = IsFile place text ->
  yaml_safe_load text = Done data ->
  load self input_file w = (Ret data, emit w [LoadedInput input_file]).
Proof.
  intros Hstat Hparse. now rewrite (load_run_file self _ _ _ _ Hstat), Hparse.
Qed.

(** X4: [load_yaml_input] handles [FileNotFoundError] and [YAMLError]
    only. An input path that resolves to a directory, or that runs through
    a regular file (as does the path of a file followed by a slash), and
    every other exception of the parser (a decoding error, say) leave the
    function as the exception itself, with no message printed and no
    [sys.exit]. *)
Theorem load_yaml_input_propagates_other_errors
    (self : ConfigRenderer) (input_file : str) (w : world) :
  (forall place,
      truthy input_file = true ->
      stat (fs w) (split_on slash input_file) = IsDir place ->
      load self input_file w = (Raise (Exc IsADirectoryError), w)) /\
  (stat (fs w) (split_on slash input_file) = NotADir ->
   load self input_file w = (Raise (Exc NotADirectoryError), w)) /\
  (forall place text e,
      stat (fs w) (split_on slash input_file) = IsFile place text ->
      yaml_safe_load text = Fails e ->
      handled_by_loader e = false ->
      load self input_file w = (Raise (Exc e), w)).
Proof.
  split; [|split].
  - intros place Ht Hd.
    unfold load_yaml_input, try_except, bind, open_str_read, open_read, of_lib, raise.
    now rewrite Ht, Hd.
  - intros Hstat.
    assert (Ht : truthy input_file = true).
    { apply (stat_raw_truthy (fs w)). intros q. rewrite Hstat. discriminate. }
    unfold load_yaml_input, try_except, bind, open_str_read, open_read, of_lib, raise.
    now rewrite Ht, Hstat.
  - intros place text e Hstat Hparse He.
    rewrite (load_run_file self _ _ _ _ Hstat), Hparse.
    destruct e; try discriminate He; reflexivity.
Qed.

(** X5: in every case [load_yaml_input] leaves the file system as it was
    and prints at most one message; when it ends the process the exit code
    is 1, and a document it returns is the parse of the text of the
    regular file that the input path, as the string it is given, resolves
    to. *)
Theorem load_yaml_input_reads_only
    (self : ConfigRenderer) (input_file : str) (w : world) :
  fs (snd (load self input_file w)) = fs w /\
  (exists ms, stdout (snd (load self input_file w)) = stdout w ++ ms /\ length ms <= 1) /\
  (forall code, fst (load self input_file w) = Raise (SystemExit code) -> code = 1%Z) /\
  (forall data,
      fst (load self input_file w) = Ret data ->
      exists place text,
        stat (fs w) (split_on slash input_file) = IsFile place text /\
        yaml_safe_load text = Done data).
Proof.
  unfold load_yaml_input, try_except, bind, open_str_read, open_read, of_lib, raise,
    sys_exit, print, ret.
  destruct (truthy input_file).
  - destruct (stat (fs w) (split_on slash input_file)) as [place text|q|q| |] eqn:E.
    + destruct (yaml_safe_load text) as [d|e] eqn:P.
      * cbn. repeat split; try discriminate.
        -- exists [LoadedInput input_file]. split; [reflexivity|cbn; lia].
        -- intros data [= <-]. now exists place, text.
      * destruct e; cbn; repeat split; try discriminate; try congruence.
        all: first [ exists []; split; [now rewrite app_nil_r|cbn; lia]
                   | eexists [_]; split; [reflexivity|cbn; lia] ].
    + cbn. repeat split; try discriminate.
      exists []. split; [now rewrite app_nil_r|cbn; lia].
    + cbn. repeat split; try discriminate; try congruence.
      eexists [_]. split; [reflexivity|cbn; lia].
    + cbn. repeat split; try discriminate.
      exists []. split; [now rewrite app_nil_r|cbn; lia].
    + cbn. repeat split; try discriminate; try congruence.
      eexists [_]. split; [reflexivity|cbn; lia].
  - cbn. repeat split; try discriminate; try congruence.
    eexists [_]. split; [reflexivity|cbn; lia].
Qed.

End LoaderExtras.

Lemma load_yaml_input_returns_parsed_document_witness :
  load_yaml_input unit toy_safe_load scenario_renderer
    (lit "changes/../changes/input.yaml") input_world =
  (Ret tt, emit input_world [LoadedInput (lit "changes/../changes/input.yaml")]).
Proof.
  exact (load_yaml_input_returns_parsed_document unit toy_safe_load scenario_renderer
           (lit "changes/../changes/input.yaml") [lit "changes"; lit "input.yaml"]
           (lit "hostname: r1") tt input_world eq_refl eq_refl).
Defined.

Lemma load_yaml_input_propagates_other_errors_witness :
  load_yaml_input unit toy_undecodable_load scenario_renderer (lit "changes/input.yaml")
    input_world =
    (Raise (Exc (OtherException (lit "UnicodeDecodeError"))), input_world) /\
  load_yaml_input unit toy_safe_load scenario_renderer (lit "changes") input_world =
    (Raise (Exc IsADirectoryError), input_world) /\
  load_yaml_input unit toy_safe_load scenario_renderer (lit "changes/input.yaml/")
    input_world =
    (Raise (Exc NotADirectoryError), input_world).
Proof.
  destruct (load_yaml_input_propagates_other_errors unit toy_undecodable_load
              scenario_renderer (lit "changes/input.yaml") input_world) as (_ & _ & H).
  destruct (load_yaml_input_propagates_other_errors unit toy_safe_load
              scenario_renderer (lit "changes") input_world) as (Hd & _).
  destruct (load_yaml_input_propagates_other_errors unit toy_safe_load
              scenario_renderer (lit "changes/input.yaml/") input_world) as (_ & Hn & _).
  split; [|split].
  - exact (H [lit "changes"; lit "input.yaml"] (lit "hostname: r1") _
             eq_refl eq_refl eq_refl).
  - exact (Hd [lit "changes"] eq_refl eq_refl).
  - exact (Hn eq_refl).
Defined.

Lemma load_yaml_input_reads_only_witness :
  exists place text,
    stat (fs input_world) (split_on slash (lit "changes/../changes/input.yaml")) =
      IsFile place text /\
    toy_safe_load text = Done tt.
Proof.
  destruct (load_yaml_input_reads_only unit toy_safe_load scenario_renderer
              (lit "changes/../changes/input.yaml") input_world) as (_ & _ & _ & H).
  exact (H tt eq_refl).
Defined.

(** ** The composer *)

Lemma kept_not_empty (t : str) : kept t = true -> t <> [].
Proof. intros H ->. discriminate H. Qed.

Lemma join_nil_inv (sep : str) (xs : list str) :
  (forall x, In x xs -> x <> []) -> join sep xs = [] -> xs = [].
Proof.
  destruct xs as [|x xs]; [reflexivity|].
  intros Hne Hj. exfalso. apply (Hne x); [now left|].
  cbn [join] in Hj. destruct xs; [exact Hj|].
  now apply app_eq_nil in Hj as [-> _].
Qed.

Lemma filter_nil_iff {A} (f : A -> bool) (l : list A) :
  List.filter f l = [] <-> forall x, In x l -> f x = false.
Proof.
  induction l as [|a l IH]; cbn [List.filter]; [now split|].
  destruct (f a) eqn:E; split.
  - discriminate.
  - intros H. specialize (H a (or_introl eq_refl)). congruence.
  - intros Hn x [<- | Hx]; [exact E|]. now apply IH.
  - intros H. apply IH. intros x Hx. apply H. now right.
Qed.

Section ComposerExtras.

Variables Document Template : Type.
Variable get_template : filesystem -> path -> str -> lib Template.
Variable template_render : filesystem -> path -> Template -> Document -> lib str.

Local Abbreviation render_all :=
  (render_all_templates Document Template get_template template_render).
Local Abbreviation text_of := (section_text Document Template get_template template_render).

(** X6: on a destination that can be written, the composed configuration
    that [render_all_templates] returns (and stores) is the empty text
    exactly when every section of the registry renders to a text that is
    empty after trimming; as soon as one section is kept the result is not
    empty. *)
Theorem composed_empty_iff_all_sections_blank
    (self : ConfigRenderer) (data : Document) (device_name : str)
    (output_file : option path) (w : world) :
  writable (fs w) (destination self device_name output_file) = true ->
  (fst (render_all self data device_name output_file w) = Ret [] <->
   forall name,
     In name (dict_keys (template_files self)) ->
     kept (text_of self data (fs w) name) = false).
Proof.
  intros Hw.
  destruct (composed_texts Document Template get_template template_render
              self data device_name output_file w Hw) as (_ & -> & _).
  rewrite <- join_compose. split.
  - intros [= Hj] name Hin.
    apply join_nil_inv in Hj.
    + apply (proj1 (filter_nil_iff _ _) Hj). now apply in_map.
    + intros x Hx. apply filter_In in Hx as [_ Hk]. now apply kept_not_empty.
  - intros Hall.
    assert (Hf : List.filter kept
                   (map (text_of self data (fs w)) (dict_keys (template_files self))) = []).
    { apply filter_nil_iff. intros x Hx.
      apply in_map_iff in Hx as (name & <- & Hin). now apply Hall. }
    now rewrite Hf.
Qed.

End ComposerExtras.

Lemma composed_empty_iff_all_sections_blank_witness :
  writable (fs empty_world)
    (destination (constructed (lit "templates/arista") (lit "output")) (lit "device")
       (Some [lit "device_config.txt"])) = true /\
  fst (render_all_templates unit str toy_get_template toy_render
         (constructed (lit "templates/arista") (lit "output")) tt (lit "device")
         (Some [lit "device_config.txt"]) empty_world) = Ret [].
Proof.
  split; [reflexivity|].
  apply (composed_empty_iff_all_sections_blank unit str toy_get_template toy_render
           (constructed (lit "templates/arista") (lit "output")) tt (lit "device")
           (Some [lit "device_config.txt"]) empty_world eq_refl).
  intros name Hin. cbn in Hin.
  repeat (destruct Hin as [<- | Hin]; [reflexivity|]). destruct Hin.
Defined.

(** ** The runs of [main] of the renderer *)

(** A walk that ends in a directory has looked at directories only. *)
Lemma walk_dir_new_files (fsys : filesystem) (m : gmap path str) (names : list str) :
  forall cur place,
    walk fsys cur names = IsDir place ->
    walk {| dirs := dirs fsys; files := m |} cur names = IsDir place.
Proof.
  induction names as [|name rest IH]; intros cur place; cbn [walk]; [auto|].
  destruct (stays name); [apply IH|].
  destruct (goes_up name).
  { rewrite is_dir_new_files.
    destruct (is_dir fsys (parent cur)); [apply IH|discriminate]. }
  rewrite is_dir_new_files.
  destruct (is_dir fsys (cur ++ [name])); [apply IH|].
  destruct (files fsys !! (cur ++ [name])), rest; discriminate.
Qed.

(** A path whose last name is plain resolves, when it can be written, to a
    place with that last name. *)
Lemma walk_last_name (fsys : filesystem) (name : str) (a : list str) :
  plain name = true ->
  forall cur place,
    write_target fsys (a ++ [name]) = Some place \/
    (exists c, walk fsys cur (a ++ [name]) = IsFile place c) \/
    walk fsys cur (a ++ [name]) = Absent place ->
    exists above, place = above ++ [name].
Proof.
  intros Hp.
  assert (Hw : forall cur place,
             (exists c, walk fsys cur (a ++ [name]) = IsFile place c) \/
             walk fsys cur (a ++ [name]) = Absent place ->
             exists above, place = above ++ [name]).
  { induction a as [|x rest IH]; intros cur place.
    - cbn [app]. rewrite (walk_step _ _ _ _ Hp).
      destruct (is_dir fsys (cur ++ [name])).
      + cbn [walk]. intros [[c H] | H]; discriminate H.
      + destruct (files fsys !! (cur ++ [name]));
          intros [[c H] | H]; try discriminate H; injection H; intros; subst; eauto.
    - cbn [app walk].
      destruct (stays x); [apply IH|].
      destruct (goes_up x).
      { destruct (is_dir fsys (parent cur)); [apply IH|].
        intros [[c H] | H]; discriminate H. }
      destruct (is_dir fsys (cur ++ [x])); [apply IH|].
      destruct (files fsys !! (cur ++ [x])), (rest ++ [name]) eqn:E;
        try (now destruct rest);
        intros [[c H] | H]; discriminate H. }
  intros cur place [H | H]; [|now apply (Hw cur)].
  apply (Hw []). unfold write_target, stat in H.
  destruct (walk fsys [] (a ++ [name])); try discriminate H;
    injection H as ->; eauto.
Qed.

Lemma config_file_name_not_output (device_name : str) :
  config_file_name device_name <> lit "output".
Proof.
  unfold config_file_name. intros H. apply (f_equal (@length N)) in H.
  rewrite length_app in H. cbn in H. lia.
Qed.

Lemma is_dir_after_mkdir_child (p place : path) (name : str) (w : world) :
  mkdir_target (fs w) p = Some place ->
  is_dir (fs w) (place ++ [name]) = false ->
  is_dir (fs (after_mkdir p w)) (place ++ [name]) = false.
Proof.
  intros Hmk Hn.
  destruct (is_dir (fs (after_mkdir p w)) (place ++ [name])) eqn:E; [|reflexivity].
  apply (is_dir_after_mkdir _ _ _ _ Hmk) in E as [E | E]; [|congruence].
  exfalso. apply (f_equal (@length str)) in E. rewrite length_app in E. cbn in E. lia.
Qed.

(** Making a directory leaves the place a path can be written at, unless
    that place is the directory made. *)
Lemma write_target_after_mkdir (p dest place : path) (w : world) :
  (forall made, stat (fs w) p = Absent made -> place <> made) ->
  write_target (fs w) dest = Some place ->
  write_target (fs (after_mkdir p w)) dest = Some place.
Proof.
  intros Hne Hw. unfold after_mkdir.
  destruct (stat (fs w) p) as [x c|x|made| |] eqn:E; try exact Hw.
  unfold write_target, stat in Hw |- *.
  destruct (walk (fs w) [] dest) as [t c|t|t| |] eqn:Ed; try discriminate Hw;
    injection Hw as ->.
  - rewrite (walk_add_dir_kept w made dest [] _ Ed); [reflexivity|].
    cbn. now apply Hne.
  - rewrite (walk_add_dir_kept w made dest [] _ Ed); [reflexivity|].
    cbn. now apply Hne.
Qed.

Section MainExtras.

Variables Document Template : Type.
Variable get_template : filesystem -> path -> str -> lib Template.
Variable template_render : filesystem -> path -> Template -> Document -> lib str.
Variable yaml_safe_load : str -> lib Document.

Local Abbreviation render_all :=
  (render_all_templates Document Template get_template template_render).
Local Abbreviation text_of := (section_text Document Template get_template template_render).
Local Abbreviation trace_of :=
  (section_trace Document Template get_template template_render).
Local Abbreviation load := (load_yaml_input Document yaml_safe_load).
Local Abbreviation main_ :=
  (main Document Template yaml_safe_load get_template template_render).
Local Abbreviation main_steps :=
  (main_unfold Document Template get_template template_render yaml_safe_load).

(** The file system after [render_all_templates]. *)
Lemma render_all_templates_fs (self : ConfigRenderer) (data : Document)
    (device_name : str) (dest : path) (w : world) :
  exists r w',
    render_all self data device_name (Some dest) w = (r, w') /\
    dirs (fs w') = dirs (fs w) /\
    (forall p, write_target (fs w) dest <> Some p ->
               files (fs w') !! p = files (fs w) !! p) /\
    (forall config, r = Ret config ->
       exists place,
         write_target (fs w) dest = Some place /\
         files (fs w') !! place = Some config /\
         config =
           compose_spec (map (text_of self data (fs w)) (dict_keys (template_files self)))).
Proof.
  pose proof (render_all_templates_run Document Template get_template template_render
                self data device_name (Some dest) w) as Hrun.
  cbv zeta in Hrun. cbn [destination] in Hrun. rewrite Hrun.
  destruct (write_target (fs w) dest) as [place|]; eexists _, _;
    (split; [reflexivity|]).
  - split; [reflexivity|]. split.
    + intros p Hp. cbn [emit put_file fs files]. apply lookup_insert_ne. congruence.
    + intros config [= <-]. exists place. split; [reflexivity|].
      split; [apply put_file_lookup|reflexivity].
  - split; [reflexivity|]. split; [reflexivity|]. discriminate.
Qed.

(** X7: a run of [main], whatever its arguments and however it ends,
    changes no file other than the one its destination path resolves to
    once the constructor has run (the destination is the configuration
    file named after the device, in the output directory when one is given
    and beside the input file otherwise), and adds no directory other than
    the output directory, there where only the last name of its path was
    missing; it removes nothing. *)
Theorem main_changes_only_its_destination (args : Args) (w : world) :
  (forall p,
      write_target (fs (after_mkdir (Path (main_output_dir args)) w))
        (main_destination args) <> Some p ->
      files (fs (snd (main_ args w))) !! p = files (fs w) !! p) /\
  (forall d, d ∈ dirs (fs (snd (main_ args w))) ->
             d ∈ dirs (fs w) \/ stat (fs w) (Path (main_output_dir args)) = Absent d) /\
  (forall d, d ∈ dirs (fs w) -> d ∈ dirs (fs (snd (main_ args w)))).
Proof.
  rewrite main_steps.
  destruct (can_mkdir (fs w) (Path (main_output_dir args))) eqn:Hmk.
  2: { destruct (init_failure (arg_templates_dir args) _ w Hmk) as (e & ->).
       cbn [snd]. auto. }
  rewrite init_after_mkdir by exact Hmk.
  set (w1 := after_mkdir (Path (main_output_dir args)) w).
  assert (Hf : files (fs w1) = files (fs w)) by apply files_after_mkdir.
  assert (Hd1 : forall d, d ∈ dirs (fs w1) ->
                  d ∈ dirs (fs w) \/ stat (fs w) (Path (main_output_dir args)) = Absent d)
    by (intros d; apply dirs_after_mkdir).
  assert (Hd2 : forall d, d ∈ dirs (fs w) -> d ∈ dirs (fs w1))
    by (intros d Hd; apply dirs_after_mkdir; now left).
  destruct (load_cases Document yaml_safe_load
              (constructed (arg_templates_dir args) (main_output_dir args))
              (arg_input_file args) w1) as (r & ms & -> & _ & _).
  destruct r as [data|r]; [|cbn [snd emit fs]; rewrite Hf; auto].
  destruct (render_all_templates_fs
              (constructed (arg_templates_dir args) (main_output_dir args)) data
              (arg_device_name args) (main_destination args) (emit w1 ms))
    as (r & w3 & -> & Hd & Hfr & _).
  cbn [emit fs] in Hd, Hfr.
  assert (Hgoal : (forall p,
                      write_target (fs w1) (main_destination args) <> Some p ->
                      files (fs w3) !! p = files (fs w) !! p) /\
                  (forall d, d ∈ dirs (fs w3) ->
                     d ∈ dirs (fs w) \/
                     stat (fs w) (Path (main_output_dir args)) = Absent d) /\
                  (forall d, d ∈ dirs (fs w) -> d ∈ dirs (fs w3))).
  { rewrite Hd. split; [|auto]. intros p Hp. rewrite (Hfr p Hp). now rewrite Hf. }
  now destruct r.
Qed.

(** X8: the validate flag never changes how a run of [main] ends nor what
    it leaves on storage: with the flag set or not, the result (and so the
    exit status) and the file system after the run are the same, only two
    more messages are printed. *)
Theorem validate_flag_never_fails_the_run (args : Args) (v : bool) (w : world) :
  fst (main_ (with_validate v args) w) = fst (main_ args w) /\
  fs (snd (main_ (with_validate v args) w)) = fs (snd (main_ args w)).
Proof.
  rewrite !main_steps.
  change (main_output_dir (with_validate v args)) with (main_output_dir args).
  change (main_destination (with_validate v args)) with (main_destination args).
  cbn [with_validate arg_templates_dir arg_input_file arg_device_name arg_validate].
  destruct (ConfigRenderer_init _ _ w) as [[renderer|r] w1]; [|now split].
  destruct (load renderer (arg_input_file args) w1) as [[data|r] w2]; [|now split].
  destruct (render_all renderer data _ _ w2) as [[config|r] w3]; now split.
Qed.

(** X9: when the input path, as the string it is given, resolves to a
    regular file but the YAML parser rejects its text, [load_yaml_input]
    prints the parse error and leaves through [sys.exit(1)]; the run of
    [main] ends with exit status 1, renders nothing and changes no
    file. *)
Theorem malformed_input_is_fatal (args : Args) (w : world) (place : path)
    (text msg : str) :
  stat (fs w) (split_on slash (arg_input_file args)) = IsFile place text ->
  yaml_safe_load text = Fails (YAMLError msg) ->
  (forall self,
      load self (arg_input_file args) w =
      (Raise (SystemExit 1), emit w [YamlParseError (YAMLError msg)])) /\
  exit_status (fst (main_ args w)) = 1%Z /\
  files (fs (snd (main_ args w))) = files (fs w) /\
  announced (stdout (snd (main_ args w))) = announced (stdout w).
Proof.
  intros Hstat Hparse. split.
  - intros self. rewrite (load_run_file _ _ self _ _ _ _ Hstat), Hparse. reflexivity.
  - rewrite main_steps.
    destruct (can_mkdir (fs w) (Path (main_output_dir args))) eqn:Hmk.
    + rewrite init_after_mkdir by exact Hmk.
      rewrite (load_run_file _ _ _ _ place text), Hparse
        by (now apply stat_after_mkdir_file).
      cbn [fst snd emit fs stdout exit_status].
      rewrite files_after_mkdir, stdout_after_mkdir, announced_app.
      cbn. now rewrite app_nil_r.
    + destruct (init_failure (arg_templates_dir args) _ w Hmk) as (e & ->).
      now cbn.
Qed.

(** X10: with an output directory given whose path resolves to a
    directory, or lacks only its last name, a device name without a slash,
    an input path that resolves to a regular file the parser accepts, and
    no directory where the output file goes, a run of [main] ends
    normally, the path of the output directory resolves to a directory
    afterwards and the file named after the device in that directory holds
    the composition of the five sections, which is also what is read back
    at the destination path. *)
Theorem main_writes_into_output_directory
    (args : Args) (w : world) (d : str) (out place : path) (text : str)
    (data : Document) :
  let dest := Path d ++ [config_file_name (arg_device_name args)] in
  let w1 := after_mkdir (Path d) w in
  let composed :=
    compose_spec
      (map (text_of (constructed (arg_templates_dir args) d) data (fs w1))
         five_sections) in
  given (arg_output_dir args) = Some d ->
  ~ In slash (arg_device_name args) ->
  mkdir_target (fs w) (Path d) = Some out ->
  stat (fs w) (split_on slash (arg_input_file args)) = IsFile place text ->
  yaml_safe_load text = Done data ->
  is_dir (fs w) (out ++ [config_file_name (arg_device_name args)]) = false ->
  fst (main_ args w) = Ret tt /\
  stat (fs (snd (main_ args w))) (Path d) = IsDir out /\
  files (fs (snd (main_ args w))) !! (out ++ [config_file_name (arg_device_name args)]) =
    Some composed /\
  content_at (fs (snd (main_ args w))) dest = Some composed.
Proof.
  intros dest w1 composed Hgiven Hs Hmk Hstat Hparse Hnd. subst composed.
  rewrite main_steps. unfold main_output_dir, main_destination. rewrite Hgiven.
  rewrite init_after_mkdir by (now apply (mkdir_target_can _ _ out)). fold w1.
  rewrite (load_run_file _ _ _ _ place text), Hparse
    by (now apply stat_after_mkdir_file).
  rewrite (config_file_name_plain _ Hs). fold dest.
  assert (Hd : stat (fs w1) (Path d) = IsDir out) by (now apply stat_after_mkdir).
  assert (Hw : write_target (fs w1) dest =
               Some (out ++ [config_file_name (arg_device_name args)])).
  { apply write_target_child; [exact Hd|apply config_file_name_is_plain|].
    now apply is_dir_after_mkdir_child. }
  pose proof (render_all_templates_run Document Template get_template template_render
                (constructed (arg_templates_dir args) d) data (arg_device_name args)
                (Some dest) (emit w1 [LoadedInput (arg_input_file args)])) as Hrun.
  cbv zeta in Hrun. cbn [destination emit fs] in Hrun. rewrite Hw in Hrun.
  destruct (render_all _ _ _ _ _) as [r0 w3].
  injection Hrun as -> ->. cbn [fst snd]. split; [reflexivity|].
  cbn [emit put_file fs files stdout].
  split; [now apply walk_dir_new_files|].
  split; [apply lookup_insert_eq|now apply content_written].
Qed.

(** X11: without an output directory, a run of [main] on an input path
    that resolves to a regular file the parser accepts writes the
    composition of the five sections to the file named after the device in
    the directory of the input file, provided that file can be opened for
    writing, the device name has no slash and the directory [output]
    exists or can be created. *)
Theorem main_writes_beside_input
    (args : Args) (w : world) (place target : path) (text : str) (data : Document) :
  let dest := parent (Path (arg_input_file args)) ++
              [config_file_name (arg_device_name args)] in
  let w1 := after_mkdir (Path (lit "output")) w in
  let composed :=
    compose_spec
      (map (text_of (constructed (arg_templates_dir args) (lit "output")) data (fs w1))
         five_sections) in
  given (arg_output_dir args) = None ->
  ~ In slash (arg_device_name args) ->
  can_mkdir (fs w) (Path (lit "output")) = true ->
  stat (fs w) (split_on slash (arg_input_file args)) = IsFile place text ->
  yaml_safe_load text = Done data ->
  write_target (fs w) dest = Some target ->
  fst (main_ args w) = Ret tt /\
  parent dest = parent (Path (arg_input_file args)) /\
  files (fs (snd (main_ args w))) !! target = Some composed /\
  content_at (fs (snd (main_ args w))) dest = Some composed.
Proof.
  intros dest w1 composed Hgiven Hs Hmk Hstat Hparse Hwr. subst composed.
  rewrite main_steps. unfold main_output_dir, main_destination. rewrite Hgiven.
  rewrite init_after_mkdir by exact Hmk. fold w1.
  rewrite (load_run_file _ _ _ _ place text), Hparse
    by (now apply stat_after_mkdir_file).
  rewrite (config_file_name_plain _ Hs). fold dest.
  assert (Hw : write_target (fs w1) dest = Some target).
  { apply write_target_after_mkdir; [|exact Hwr].
    intros made Hmade ->.
    destruct (walk_last_name (fs w) (config_file_name (arg_device_name args))
                (parent (Path (arg_input_file args)))
                (config_file_name_is_plain _) [] made (or_introl Hwr)) as (above & Ha).
    change (Path (lit "output")) with ([] ++ [lit "output"]) in Hmade.
    destruct (walk_last_name (fs w) (lit "output") [] eq_refl [] made
                (or_intror (or_intror Hmade))) as (above' & Ha').
    rewrite Ha in Ha'. apply app_inj_tail in Ha' as [_ Ha'].
    now apply config_file_name_not_output in Ha'. }
  pose proof (render_all_templates_run Document Template get_template template_render
                (constructed (arg_templates_dir args) (lit "output")) data
                (arg_device_name args) (Some dest)
                (emit w1 [LoadedInput (arg_input_file args)])) as Hrun.
  cbv zeta in Hrun. cbn [destination emit fs] in Hrun. rewrite Hw in Hrun.
  destruct (render_all _ _ _ _ _) as [r0 w3].
  injection Hrun as -> ->. cbn [fst snd]. split; [reflexivity|].
  split; [apply removelast_last|].
  cbn [emit put_file fs files stdout].
  split; [apply lookup_insert_eq|now apply content_written].
Qed.

(** X12: without an output directory [main] still constructs the renderer
    on the directory [output]: when nothing of that name exists in the
    working directory the run creates it, however it ends; when a regular
    file of that name exists the run stops at once with
    [FileExistsError], before the input is read. *)
Theorem main_default_output_directory (args : Args) (w : world) :
  given (arg_output_dir args) = None ->
  (stat (fs w) (Path (lit "output")) = Absent [lit "output"] ->
   is_dir (fs (snd (main_ args w))) (Path (lit "output")) = true) /\
  (forall place content,
      stat (fs w) (Path (lit "output")) = IsFile place content ->
      main_ args w = (Raise (Exc FileExistsError), w)).
Proof.
  intros Hgiven. rewrite main_steps. unfold main_output_dir. rewrite Hgiven. split.
  - intros Hstat.
    assert (Hmk : can_mkdir (fs w) (Path (lit "output")) = true).
    { unfold can_mkdir. now rewrite Hstat. }
    rewrite init_after_mkdir by exact Hmk.
    assert (Hd : is_dir (fs (after_mkdir (Path (lit "output")) w)) (Path (lit "output"))
                 = true).
    { unfold after_mkdir. rewrite Hstat. rewrite is_dir_add_dir.
      now rewrite bool_decide_eq_true_2. }
    destruct (load_cases Document yaml_safe_load
                (constructed (arg_templates_dir args) (lit "output"))
                (arg_input_file args) (after_mkdir (Path (lit "output")) w))
      as (r & ms & -> & _ & _).
    destruct r as [data|r]; [|exact Hd].
    destruct (render_all_templates_fs
                (constructed (arg_templates_dir args) (lit "output")) data
                (arg_device_name args) (main_destination args)
                (emit (after_mkdir (Path (lit "output")) w) ms))
      as (r & w3 & -> & Hdirs & _).
    cbn [emit fs] in Hdirs.
    assert (is_dir (fs w3) (Path (lit "output")) = true)
      by (erewrite is_dir_same_dirs; [exact Hd|exact Hdirs]).
    now destruct r.
  - intros place content Hstat.
    unfold ConfigRenderer_init, bind, mkdir_exist_ok. now rewrite Hstat.
Qed.

End MainExtras.

Lemma main_changes_only_its_destination_witness :
  files (fs (snd (main unit str toy_safe_load toy_get_any toy_render example_args
                    input_world)))
    !! [lit "changes"; lit "input.yaml"] = Some (lit "hostname: r1").
Proof.
  destruct (main_changes_only_its_destination unit str toy_get_any toy_render
              toy_safe_load example_args input_world) as (H & _).
  rewrite H; [reflexivity|].
  intros E. vm_compute in E. discriminate E.
Defined.

Lemma malformed_input_is_fatal_witness :
  exit_status
    (fst (main unit str toy_failing_load toy_get_any toy_render example_args input_world))
  = 1%Z.
Proof.
  destruct (malformed_input_is_fatal unit str toy_get_any toy_render toy_failing_load
              example_args input_world [lit "changes"; lit "input.yaml"]
              (lit "hostname: r1")
              (lit "mapping values are not allowed here") eq_refl eq_refl)
    as (_ & H & _).
  exact H.
Defined.

Lemma main_writes_into_output_directory_witness :
  fst (main unit str toy_safe_load toy_get_any toy_render example_args_with_output
         input_world) = Ret tt /\
  files (fs (snd (main unit str toy_safe_load toy_get_any toy_render
                    example_args_with_output input_world)))
    !! [lit "out"; lit "device_config.txt"] =
  Some (join [nl] [lit "r1"; lit "r1"; lit "r1"; lit "r1"; lit "r1"]).
Proof.
  assert (Hs : ~ In slash (arg_device_name example_args_with_output)).
  { intros H. vm_compute in H. intuition discriminate. }
  destruct (main_writes_into_output_directory unit str toy_get_any toy_render
              toy_safe_load example_args_with_output input_world (lit "out")
              [lit "out"] [lit "changes"; lit "input.yaml"]
              (lit "hostname: r1") tt eq_refl Hs eq_refl eq_refl eq_refl eq_refl)
    as (H1 & _ & H2 & _).
  split; [exact H1|exact H2].
Defined.

Lemma main_writes_beside_input_witness :
  files (fs (snd (main unit str toy_safe_load toy_get_any toy_render example_args
                    input_world)))
    !! [lit "changes"; lit "device_config.txt"] =
  Some (join [nl] [lit "r1"; lit "r1"; lit "r1"; lit "r1"; lit "r1"]).
Proof.
  assert (Hs : ~ In slash (arg_device_name example_args)).
  { intros H. vm_compute in H. intuition discriminate. }
  destruct (main_writes_beside_input unit str toy_get_any toy_render toy_safe_load
              example_args input_world [lit "changes"; lit "input.yaml"]
              [lit "changes"; lit "device_config.txt"] (lit "hostname: r1") tt
              eq_refl Hs eq_refl eq_refl eq_refl eq_refl) as (_ & _ & H & _).
  exact H.
Defined.

Lemma main_default_output_directory_witness :
  is_dir (fs (snd (main unit str toy_safe_load toy_get_any toy_render example_args
                     input_world)))
    (Path (lit "output")) = true.
Proof.
  destruct (main_default_output_directory unit str toy_get_any toy_render toy_safe_load
              example_args input_world eq_refl) as (H & _).
  exact (H eq_refl).
Defined.

(** ** The change-record script *)

Module ServiceNowExtras.

Import ServiceNow.

Section IntegrationExtras.

Variable requests : list http_request -> http_request -> lib response.
Variable now_isoformat : str.

Local Abbreviation update_ := (update_change_request requests now_isoformat).
Local Abbreviation details_ := (get_change_request_details requests).
Local Abbreviation main_ := (ServiceNow.main requests now_isoformat).
Local Abbreviation update_request_ := (update_request now_isoformat).
Local Abbreviation accepted := (ServiceNow.accepted requests now_isoformat).

(** The two ways [update_change_request] can go: it stops after the
    lookup and returns [False], or it sends the one update and returns
    whether the instance accepted it. *)
Lemma update_outcome (self : ServiceNowIntegration) (change_number status comments : str)
    (st : session) :
  (fst (update_ self change_number status comments st) = false /\
   sent (snd (update_ self change_number status comments st)) =
     sent st ++ [lookup_request self change_number]) \/
  (exists sys_id,
      fst (update_ self change_number status comments st) =
        accepted self change_number status comments st sys_id /\
      sent (snd (update_ self change_number status comments st)) =
        sent st ++ [lookup_request self change_number;
                    update_request_ self sys_id status comments]).
Proof.
  unfold update_change_request, try_update, send, ServiceNow.accepted, lookup_request,
    update_request, table_url.
  cbn [sent fst snd].
  destruct (requests (sent st) _) as [response|e]; [|now left].
  destruct (negb (status_code response =? 200)%Z); [now left|].
  destruct (response_json response) as [data|e]; [|now left].
  destruct (json_get (lit "result") data) as [result|e]; [|now left].
  destruct (negb (json_truthy result)); [now left|].
  destruct (json_first result) as [record|e]; [|now left].
  destruct (json_item (lit "sys_id") record) as [sys_id|e]; [|now left].
  right. exists sys_id. cbn [sent].
  destruct (requests _ _) as [update_response|e].
  - destruct (status_code update_response =? 200)%Z; cbn [fst snd sent say];
      (split; [reflexivity|now rewrite <- app_assoc]).
  - cbn [fst snd sent say]. split; [reflexivity|now rewrite <- app_assoc].
Qed.

Lemma sent_app_inv (st : session) (a b : list http_request) :
  sent st ++ a = sent st ++ b -> a = b.
Proof. apply app_inv_head. Qed.

(** X13: [update_change_request] returns [True] exactly when it has sent
    the lookup and then one update, and the instance answered that update
    with status 200; in every other case it returns [False]. *)
Theorem update_succeeds_iff_update_accepted
    (self : ServiceNowIntegration) (change_number status comments : str) (st : session) :
  fst (update_ self change_number status comments st) = true <->
  exists sys_id update_response,
    sent (snd (update_ self change_number status comments st)) =
      sent st ++ [lookup_request self change_number;
                  update_request_ self sys_id status comments] /\
    requests (sent st ++ [lookup_request self change_number])
      (update_request_ self sys_id status comments) = Done update_response /\
    status_code update_response = 200%Z.
Proof.
  destruct (update_outcome self change_number status comments st)
    as [[Hb Hs] | (sys_id & Hb & Hs)]; rewrite Hb, Hs.
  - split; [discriminate|]. intros (id & r & H & _).
    apply sent_app_inv in H. discriminate H.
  - unfold ServiceNow.accepted. split.
    + destruct (requests _ _) as [r|e] eqn:E; [|discriminate].
      intros H200. exists sys_id, r.
      split; [reflexivity|]. split; [exact E|]. now apply Z.eqb_eq.
    + intros (id & r & H & Hr & H200).
      apply sent_app_inv in H.
      assert (Hid : id = sys_id) by (unfold update_request in H; congruence).
      subst id. rewrite Hr. now apply Z.eqb_eq.
Qed.

(** X14: when the lookup is answered with a status other than 200, when
    its answer holds no result, or when the request itself fails,
    [update_change_request] prints the reason, returns [False] and has sent
    the lookup only: no update is attempted. *)
Theorem failed_lookup_sends_no_update
    (self : ServiceNowIntegration) (change_number status comments : str) (st : session) :
  (forall lookup_response,
      requests (sent st) (lookup_request self change_number) = Done lookup_response ->
      status_code lookup_response <> 200%Z ->
      update_ self change_number status comments st =
      (false,
       {| sent := sent st ++ [lookup_request self change_number];
          out := out st ++ [ErrorRetrieving (status_code lookup_response)] |})) /\
  (forall lookup_response data result,
      requests (sent st) (lookup_request self change_number) = Done lookup_response ->
      status_code lookup_response = 200%Z ->
      response_json lookup_response = Done data ->
      json_get (lit "result") data = Done result ->
      json_truthy result = false ->
      update_ self change_number status comments st =
      (false,
       {| sent := sent st ++ [lookup_request self change_number];
          out := out st ++ [ChangeRequestNotFound change_number] |})) /\
  (forall e,
      requests (sent st) (lookup_request self change_number) = Fails e ->
      update_ self change_number status comments st =
      (false,
       {| sent := sent st ++ [lookup_request self change_number];
          out := out st ++ [ExceptionUpdating e] |})).
Proof.
  unfold update_change_request, try_update, send.
  fold (table_url self). fold (lookup_request self change_number).
  split; [|split].
  - intros r Hr Hcode. rewrite Hr.
    apply Z.eqb_neq in Hcode. now rewrite Hcode.
  - intros r data result Hr Hcode Hjson Hres Hfalse.
    rewrite Hr, Hcode, Hjson, Hres, Hfalse. reflexivity.
  - intros e Hr. now rewrite Hr.
Qed.

(** The requests of a run of [main]. *)
Lemma main_sent (env : environ) (st : session) :
  (configured env = false /\ main_ env st = (Ret tt, say CredentialsNotConfigured st)) \/
  (configured env = true /\
   sent (snd (main_ env st)) =
     sent (snd (update_ (integration_of env) (change_number env)
                  (snow_status (workflow_status env)) (comments_of env) st)) /\
   fst (main_ env st) =
     if fst (update_ (integration_of env) (change_number env)
               (snow_status (workflow_status env)) (comments_of env) st)
     then Ret tt else Raise (SystemExit 1)).
Proof.
  unfold ServiceNow.main. fold (configured env).
  destruct (configured env); [right|now left].
  cbn [negb]. fold (integration_of env) (comments_of env).
  destruct (update_ _ _ _ _ st) as [success st'].
  split; [reflexivity|]. now destruct success.
Qed.

(** X15: a run of [main] sends nothing when a credential is missing or
    empty (and then ends normally), and otherwise the lookup of the change
    request, followed by at most one update of the record it found: never
    an update without the lookup before it, never more than two
    requests. *)
Theorem main_request_discipline (env : environ) (st : session) :
  (configured env = false ->
   main_ env st = (Ret tt, say CredentialsNotConfigured st)) /\
  (configured env = true ->
   sent (snd (main_ env st)) =
     sent st ++ [lookup_request (integration_of env) (change_number env)] \/
   exists sys_id,
     sent (snd (main_ env st)) =
       sent st ++ [lookup_request (integration_of env) (change_number env);
                   update_request_ (integration_of env) sys_id
                     (snow_status (workflow_status env)) (comments_of env)]).
Proof.
  destruct (main_sent env st) as [[Hc Hm] | (Hc & Hs & _)]; rewrite Hc.
  - split; [auto|discriminate].
  - split; [discriminate|]. intros _. rewrite Hs.
    destruct (update_outcome (integration_of env) (change_number env)
                (snow_status (workflow_status env)) (comments_of env) st)
      as [[_ H] | (sys_id & _ & H)]; [now left|right; now exists sys_id].
Qed.

(** X16: a run of [main] ends with exit status 0 when a credential is
    missing or when the instance accepted the update with status 200, and
    with exit status 1 in every other case. *)
Theorem main_exit_status (env : environ) (st : session) :
  (exit_status (fst (main_ env st)) = 0%Z \/ exit_status (fst (main_ env st)) = 1%Z) /\
  (exit_status (fst (main_ env st)) = 0%Z <->
   configured env = false \/
   exists sys_id,
     sent (snd (main_ env st)) =
       sent st ++ [lookup_request (integration_of env) (change_number env);
                   update_request_ (integration_of env) sys_id
                     (snow_status (workflow_status env)) (comments_of env)] /\
     accepted (integration_of env) (change_number env)
       (snow_status (workflow_status env)) (comments_of env) st sys_id = true).
Proof.
  destruct (main_sent env st) as [[Hc Hm] | (Hc & Hs & Hf)].
  - rewrite Hm. cbn. split; [now left|]. split; auto.
  - rewrite Hf, Hs, Hc.
    destruct (update_outcome (integration_of env) (change_number env)
                (snow_status (workflow_status env)) (comments_of env) st)
      as [[Hb H] | (sys_id & Hb & H)]; rewrite Hb, H.
    + cbn. split; [now right|]. split; [discriminate|].
      intros [Hd | (id & Hid & _)]; [discriminate|].
      apply sent_app_inv in Hid. discriminate Hid.
    + destruct (accepted _ _ _ _ st sys_id) eqn:Ha; cbn [exit_status].
      * split; [now left|]. split; [|reflexivity]. intros _. right.
        exists sys_id. now split.
      * split; [now right|]. split; [discriminate|].
        intros [Hd | (id & Hid & Hacc)]; [discriminate|].
        apply sent_app_inv in Hid.
        assert (id = sys_id) by (unfold update_request in Hid; congruence).
        subst id. congruence.
Qed.

Lemma snow_status_range (s : str) :
  (snow_status s = lit "Review" /\ s = lit "success") \/
  (snow_status s = lit "Cancelled" /\ s = lit "cancelled") \/
  snow_status s = lit "Authorize".
Proof.
  unfold snow_status, dict_get, status_mapping. cbn [find fst].
  repeat case_bool_decide; subst; auto.
Qed.

Lemma workflow_status_set (env : environ) (s : str) :
  s <> lit "unknown" -> workflow_status env = s -> WORKFLOW_STATUS env = Some s.
Proof.
  unfold workflow_status. intros Hne H.
  destruct (WORKFLOW_STATUS env) as [v|]; simpl in H.
  - now subst.
  - exfalso. apply Hne. now symmetry.
Qed.

(** X17: an update that a run of [main] sends moves the change request to
    Review only when the variable WORKFLOW_STATUS is set to exactly
    success, and to Cancelled only when it is set to exactly cancelled;
    its state is always one of Review, Authorize and Cancelled. *)
Theorem review_only_on_success
    (env : environ) (st : session) (url : str) (sys_id : json) (a : str * str)
    (data : update_data) :
  In (Put url sys_id a data) (sent (snd (main_ env st))) ->
  ~ In (Put url sys_id a data) (sent st) ->
  (state data = lit "Review" -> WORKFLOW_STATUS env = Some (lit "success")) /\
  (state data = lit "Cancelled" -> WORKFLOW_STATUS env = Some (lit "cancelled")) /\
  (state data = lit "Review" \/ state data = lit "Authorize" \/
   state data = lit "Cancelled").
Proof.
  intros Hin Hold.
  assert (Hstate : state data = snow_status (workflow_status env)).
  { destruct (main_sent env st) as [[_ Hm] | (_ & Hs & _)].
    - rewrite Hm in Hin. now cbn in Hin.
    - rewrite Hs in Hin.
      destruct (update_outcome (integration_of env) (change_number env)
                  (snow_status (workflow_status env)) (comments_of env) st)
        as [[_ H] | (id & _ & H)]; rewrite H in Hin;
        apply in_app_iff in Hin as [Hin | Hin]; try contradiction.
      + destruct Hin as [Hin | []]. discriminate Hin.
      + destruct Hin as [Hin | [Hin | []]]; [discriminate Hin|].
        unfold update_request in Hin. now injection Hin as _ _ _ <-. }
  rewrite Hstate.
  destruct (snow_status_range (workflow_status env))
    as [[-> Hw] | [[-> Hw] | ->]].
  - split; [|split; [discriminate|now left]].
    intros _. apply workflow_status_set; [discriminate|exact Hw].
  - split; [discriminate|split; [|now right; right]].
    intros _. apply workflow_status_set; [discriminate|exact Hw].
  - split; [discriminate|split; [discriminate|now right; left]].
Qed.

(** X18: [get_change_request_details] only reads: whatever the instance
    answers it sends exactly one request, the lookup that
    [update_change_request] starts with, and never an update; it returns a
    record only when the lookup was answered with status 200 and a
    non-empty result, whose first element is the record returned, and it
    prints nothing then. *)
Theorem details_is_one_lookup
    (self : ServiceNowIntegration) (change_number : str) (st : session) :
  sent (snd (details_ self change_number st)) =
    sent st ++ [lookup_request self change_number] /\
  out (snd (details_ self change_number st)) = out st /\
  (forall record,
      fst (fst (details_ self change_number st)) = Some record ->
      snd (fst (details_ self change_number st)) = [] /\
      exists lookup_response data result,
        requests (sent st) (lookup_request self change_number) = Done lookup_response /\
        status_code lookup_response = 200%Z /\
        response_json lookup_response = Done data /\
        json_get (lit "result") data = Done result /\
        json_truthy result = true /\
        json_first result = Done record).
Proof.
  unfold get_change_request_details, try_details, send.
  fold (table_url self). fold (lookup_request self change_number).
  destruct (requests (sent st) _) as [response|e] eqn:Er; [|now repeat split].
  destruct (status_code response =? 200)%Z eqn:Ec; [|now repeat split].
  destruct (response_json response) as [data|e] eqn:Ej; [|now repeat split].
  destruct (json_get (lit "result") data) as [result|e] eqn:Eg; [|now repeat split].
  destruct (json_truthy result) eqn:Et; [|now repeat split].
  destruct (json_first result) as [record|e] eqn:Ef; [|now repeat split].
  cbn [fst snd sent out]. split; [reflexivity|]. split; [reflexivity|].
  intros r [= <-]. split; [reflexivity|].
  exists response, data, result.
  split; [reflexivity|]. split; [now apply Z.eqb_eq|]. now repeat split.
Qed.

(** X19: the two methods agree on the change request: on the same
    session, when [get_change_request_details] returns a record that has
    a [sys_id], [update_change_request] sends its update to that very
    [sys_id], and when it returns [None], [update_change_request] returns
    [False] and sends no update. *)
Theorem details_and_update_agree
    (self : ServiceNowIntegration) (change_number status comments : str) (st : session) :
  (forall record sys_id,
      fst (fst (details_ self change_number st)) = Some record ->
      json_item (lit "sys_id") record = Done sys_id ->
      sent (snd (update_ self change_number status comments st)) =
        sent st ++ [lookup_request self change_number;
                    update_request_ self sys_id status comments]) /\
  (fst (fst (details_ self change_number st)) = None ->
   fst (update_ self change_number status comments st) = false /\
   sent (snd (update_ self change_number status comments st)) =
     sent st ++ [lookup_request self change_number]).
Proof.
  unfold get_change_request_details, try_details, update_change_request, try_update, send.
  fold (table_url self). fold (lookup_request self change_number).
  cbn [sent].
  destruct (requests (sent st) _) as [response|e]; [|now split].
  destruct (status_code response =? 200)%Z; cbn [negb]; [|now split].
  destruct (response_json response) as [data|e]; [|now split].
  destruct (json_get (lit "result") data) as [result|e]; [|now split].
  destruct (json_truthy result); cbn [negb]; [|now split].
  destruct (json_first result) as [record|e]; [|now split].
  cbn [fst snd]. split; [|discriminate].
  intros r sys_id [= <-] Hitem. rewrite Hitem.
  fold (update_request_ self sys_id status comments).
  destruct (requests _ _) as [update_response|e].
  - destruct (status_code update_response =? 200)%Z; cbn [snd sent say];
      now rewrite <- app_assoc.
  - cbn [snd sent say]. now rewrite <- app_assoc.
Qed.

End IntegrationExtras.

End ServiceNowExtras.

Lemma update_succeeds_iff_update_accepted_witness :
  fst (ServiceNow.update_change_request toy_requests (lit "2025-01-01T00:00:00")
         (ServiceNow.integration_of (toy_environ None)) (lit "CHG0123456")
         (lit "Review") (lit "done") new_session) = true.
Proof.
  apply (ServiceNowExtras.update_succeeds_iff_update_accepted toy_requests
           (lit "2025-01-01T00:00:00")).
  exists (ServiceNow.JStr (lit "abc123")),
    {| ServiceNow.status_code := 200;
       ServiceNow.response_json := Done ServiceNow.JNull |}.
  repeat split; reflexivity.
Defined.

Lemma failed_lookup_sends_no_update_witness :
  ServiceNow.update_change_request toy_requests_404 (lit "2025-01-01T00:00:00")
    (ServiceNow.integration_of (toy_environ None)) (lit "CHG0123456")
    (lit "Review") (lit "done") new_session =
  (false,
   {| ServiceNow.sent :=
        [ServiceNow.lookup_request (ServiceNow.integration_of (toy_environ None))
           (lit "CHG0123456")];
      ServiceNow.out := [ServiceNow.ErrorRetrieving 404] |}).
Proof.
  destruct (ServiceNowExtras.failed_lookup_sends_no_update toy_requests_404
              (lit "2025-01-01T00:00:00")
              (ServiceNow.integration_of (toy_environ None)) (lit "CHG0123456")
              (lit "Review") (lit "done") new_session) as (H & _).
  refine (H _ eq_refl _). discriminate.
Defined.

Lemma main_request_discipline_witness :
  ServiceNow.main toy_requests (lit "2025-01-01T00:00:00") bare_environ new_session =
  (Ret tt, ServiceNow.say ServiceNow.CredentialsNotConfigured new_session).
Proof.
  destruct (ServiceNowExtras.main_request_discipline toy_requests
              (lit "2025-01-01T00:00:00") bare_environ new_session) as (H & _).
  exact (H eq_refl).
Defined.

Lemma review_only_on_success_witness :
  ServiceNow.WORKFLOW_STATUS (toy_environ (Some (lit "success"))) =
  Some (lit "success").
Proof.
  assert (Hin : In (ServiceNow.update_request (lit "2025-01-01T00:00:00")
                      (ServiceNow.integration_of (toy_environ (Some (lit "success"))))
                      (ServiceNow.JStr (lit "abc123")) (lit "Review")
                      (ServiceNow.comments_of (toy_environ (Some (lit "success")))))
                  (ServiceNow.sent
                     (snd (ServiceNow.main toy_requests (lit "2025-01-01T00:00:00")
                             (toy_environ (Some (lit "success"))) new_session)))).
  { right. left. reflexivity. }
  destruct (ServiceNowExtras.review_only_on_success toy_requests
              (lit "2025-01-01T00:00:00") (toy_environ (Some (lit "success")))
              new_session _ _ _ _ Hin (fun H => H)) as (H & _).
  exact (H eq_refl).
Defined.

Lemma details_is_one_lookup_witness :
  snd (fst (ServiceNow.get_change_request_details toy_requests
              (ServiceNow.integration_of (toy_environ None)) (lit "CHG0123456")
              new_session)) = [].
Proof.
  destruct (ServiceNowExtras.details_is_one_lookup toy_requests
              (ServiceNow.integration_of (toy_environ None)) (lit "CHG0123456")
              new_session) as (_ & _ & H).
  destruct (H _ eq_refl) as [Hnil _]. exact Hnil.
Defined.

Lemma details_and_update_agree_witness :
  ServiceNow.sent
    (snd (ServiceNow.update_change_request toy_requests_refused
            (lit "2025-01-01T00:00:00")
            (ServiceNow.integration_of (toy_environ None)) (lit "CHG0123456")
            (lit "Authorize") (lit "done") new_session)) =
  [ServiceNow.lookup_request (ServiceNow.integration_of (toy_environ None))
     (lit "CHG0123456");
   ServiceNow.update_request (lit "2025-01-01T00:00:00")
     (ServiceNow.integration_of (toy_environ None)) (ServiceNow.JStr (lit "abc123"))
     (lit "Authorize") (lit "done")].
Proof.
  destruct (ServiceNowExtras.details_and_update_agree toy_requests_refused
              (lit "2025-01-01T00:00:00")
              (ServiceNow.integration_of (toy_environ None)) (lit "CHG0123456")
              (lit "Authorize") (lit "done") new_session) as (H & _).
  exact (H _ (ServiceNow.JStr (lit "abc123")) eq_refl eq_refl).
Defined.
